(** * ARIP: model extraction, atom filtering, classification and the
      per-model pipeline of [arip3/ARIP_main.py]

    The development follows the Python module function by function:
    - [Py]: the string and list primitives of Python the module relies on
      (slices, indexing, [startswith], [in], [strip], [str(int)]), and the
      exceptions they raise;
    - [Loader]: [load_atom_models];
    - [Classifier]: [parse_atom_model];
    - [Pipeline]: [arip_analyze] and [arip_main], as programs that leave a
      trace of what they print and of the collaborator calls they make.

    Characters are modelled as [ascii] (code points below 256), text lines as
    [string] with their line terminator, exceptions as values of [exn]. *)

From Stdlib Require Import ZArith String Ascii List Lia DecimalString.
From stdpp Require Import base option list gmap strings sorting.

Open Scope string_scope.
Open Scope list_scope.

(* ===================================================================== *)
(** ** Python primitives *)
(* ===================================================================== *)

Module Py.

(** Exceptions the module can meet.  [OSError] stands for the family raised
    by [open] on a path that cannot be opened ([FileNotFoundError],
    [PermissionError], [IsADirectoryError]), with what went wrong;
    [SystemExit] carries the message handed to [die]; [CollaboratorError]
    stands for whatever an external collaborator may raise. *)
Inductive exn : Type :=
  | IndexError
  | KeyError
  | ValueError
  | TypeError
  | OSError (what : string)
  | SystemExit (msg : string)
  | CollaboratorError (what : string).

(** The outcome of evaluating a Python expression that may raise. *)
Inductive result (A : Type) : Type :=
  | Ok (a : A)
  | Raise (e : exn).
Arguments Ok {A} a.
Arguments Raise {A} e.

#[global] Instance result_ret : MRet result := fun _ a => Ok a.
#[global] Instance result_bind : MBind result := fun _ _ f m =>
  match m with
  | Ok a => f a
  | Raise e => Raise e
  end.
#[global] Instance result_fmap : FMap result := fun _ _ f m =>
  match m with
  | Ok a => Ok (f a)
  | Raise e => Raise e
  end.

Definition is_ok {A} (r : result A) : bool :=
  match r with Ok _ => true | Raise _ => false end.

(** A list comprehension [[x for x in l if p x]] whose condition may raise:
    the first exception aborts the whole comprehension. *)
Fixpoint filterM {A} (p : A -> result bool) (l : list A) : result (list A) :=
  match l with
  | [] => Ok []
  | x :: l' =>
      b ← p x;
      r ← filterM p l';
      Ok (if b : bool then x :: r else r)
  end.

(** A [for] loop that appends one computed element per iteration. *)
Fixpoint forM {A B} (f : A -> result B) (l : list A) : result (list B) :=
  match l with
  | [] => Ok []
  | x :: l' =>
      y ← f x;
      r ← forM f l';
      Ok (y :: r)
  end.

(** [l[a:b]] on a list, for non-negative [a] and [b]: empty when [b <= a],
    cut at the end of the list. *)
Definition list_slice {A} (a b : nat) (l : list A) : list A :=
  take (b - a) (drop a l).

(** [s.startswith(p)]. *)
Definition startswith (s p : string) : bool := String.prefix p s.

(** [sub in s]: [sub] occurs somewhere in [s]. *)
Fixpoint contains (sub s : string) : bool :=
  String.prefix sub s ||
  match s with
  | EmptyString => false
  | String _ s' => contains sub s'
  end.

(** [s[i]]: raises [IndexError] beyond the end of the string. *)
Definition index (s : string) (i : nat) : result ascii :=
  match String.get i s with
  | Some c => Ok c
  | None => Raise IndexError
  end.

(** [s[a:b]]: never raises, cut at the end of the string. *)
Definition slice (a b : nat) (s : string) : string :=
  String.substring a (b - a) s.

(** [str.isspace] on one character: the ASCII white space, the four
    separators 28..31, and NEL and NBSP of Latin-1. *)
Definition isspace (c : ascii) : bool :=
  let n := nat_of_ascii c in
  (((9 <=? n) && (n <=? 13)) || ((28 <=? n) && (n <=? 32))
   || (n =? 133) || (n =? 160))%nat.

(** [s.lstrip()]. *)
Fixpoint lstrip (s : string) : string :=
  match s with
  | EmptyString => EmptyString
  | String c s' => if isspace c then lstrip s' else s
  end.

(** [s.rstrip()]. *)
Fixpoint rstrip (s : string) : string :=
  match s with
  | EmptyString => EmptyString
  | String c s' =>
      match rstrip s' with
      | EmptyString => if isspace c then EmptyString else String c EmptyString
      | r => String c r
      end
  end.

(** [s.strip()]. *)
Definition strip (s : string) : string := rstrip (lstrip s).

(** [str(n)] for an integer. *)
Definition str_of_int (n : Z) : string := NilZero.string_of_int (Z.to_int n).

(** [''.join(l)]. *)
Definition join (l : list string) : string := String.concat "" l.

Definition is_digit (c : ascii) : bool :=
  let n := nat_of_ascii c in ((48 <=? n) && (n <=? 57))%nat.

Definition digit_value (c : ascii) : Z := Z.of_nat (nat_of_ascii c - 48).

(** The digits of an integer literal: decimal digits, single underscores
    allowed between two digits.  [after_digit] tells whether the previous
    character was a digit, [acc] is the value read so far. *)
Fixpoint int_digits (after_digit : bool) (acc : Z) (s : string) : option Z :=
  match s with
  | EmptyString => if after_digit then Some acc else None
  | String c s' =>
      if is_digit c then int_digits true (10 * acc + digit_value c)%Z s'
      else if Ascii.eqb c "_" && after_digit then
        match s' with
        | String d _ => if is_digit d then int_digits false acc s' else None
        | EmptyString => None
        end
      else None
  end.

(** The white space [int] skips around a literal: the ASCII white space
    and, beyond ASCII, NEL and NBSP.  The separators 28..31, which
    [str.isspace] and [str.strip] count as white space, are not skipped. *)
Definition int_space (c : ascii) : bool :=
  let n := nat_of_ascii c in
  (((9 <=? n) && (n <=? 13)) || (n =? 32) || (n =? 133) || (n =? 160))%nat.

Fixpoint skip_left (p : ascii -> bool) (s : string) : string :=
  match s with
  | EmptyString => EmptyString
  | String c s' => if p c then skip_left p s' else s
  end.

Fixpoint skip_right (p : ascii -> bool) (s : string) : string :=
  match s with
  | EmptyString => EmptyString
  | String c s' =>
      match skip_right p s' with
      | EmptyString => if p c then EmptyString else String c EmptyString
      | r => String c r
      end
  end.

(** [int(s)]: the white space of [int_space] around the literal is ignored,
    one sign is allowed; anything else raises [ValueError]. *)
Definition int (s : string) : result Z :=
  let body := skip_right int_space (skip_left int_space s) in
  let '(neg, digits) :=
    match body with
    | String "-" d => (true, d)
    | String "+" d => (false, d)
    | _ => (false, body)
    end in
  match int_digits false 0%Z digits with
  | Some n => Ok (if neg : bool then (- n)%Z else n)
  | None => Raise ValueError
  end.

End Py.

Import Py.

(* ===================================================================== *)
(** ** Model extraction and atom filtering: [load_atom_models] *)
(* ===================================================================== *)

Module Loader.

(** What opening and reading the file gives.  The first [open(fp, 'rb')],
    which reads the header for the gzip detection, is outside the [try]: a
    path that cannot be opened is [Unopenable].  Once it is open, reading it
    gives text lines, each with its line terminator, or fails inside the
    [try] ([Undecodable]); the gzip detection only selects how the text is
    obtained. *)
Inductive FileContent : Type :=
  | Unopenable (what : string)
  | Undecodable
  | Text (all_lines : list string).

(** A model is the list of its atom lines. *)
Definition AtomModel : Type := list string.

(** Modelled from the spec: [utils.die] is not in the sources; the spec has
    the loader fail with an error and abandon the file, so [die] raises,
    carrying its message. *)
Definition die {A} (msg : string) : result A := Raise (SystemExit msg).

Definition unsupported_format (name : string) : string :=
  "The file " +:+ name +:+ " is unsupported format".

Definition corrupted_file (name : string) : string :=
  "The file " +:+ name +:+ " may be corrupted or contain incomplete MODEL".

(** The exception of the first [open] escapes as it is; any exception
    inside the [try] becomes [die]; [fh.readline()] consumes the first line
    and [fh.readlines()] keeps the rest. *)
Definition read_lines (name : string) (fc : FileContent) : result (list string) :=
  match fc with
  | Unopenable what => Raise (OSError what)
  | Undecodable => die (unsupported_format name)
  | Text all_lines => Ok (tail all_lines)
  end.

(** [[i for i in range(len(lines)) if lines[i].startswith(marker)]]. *)
Definition marker_indices (marker : string) (lines : list string) : list nat :=
  List.filter (fun i => match lines !! i with
                        | Some l => startswith l marker
                        | None => false
                        end)
              (seq 0 (length lines)).

Definition is_atom_record (line : string) : bool :=
  startswith line "ATOM" || startswith line "HETATM".

(** The value bound to [MDL]: a list in the single-model case, a dict from
    model number to lines otherwise; the dict keeps insertion order. *)
Inductive MDL_t : Type :=
  | MDL_list (l : list string)
  | MDL_dict (d : list (Z * list string)).

(** [{i+1: lines[MODEL[i] : ENDMDL[i]] for i in range(len(MODEL))}]. *)
Definition model_blocks (MODEL ENDMDL : list nat) (lines : list string)
  : list (Z * list string) :=
  (fun i => ((Z.of_nat i + 1)%Z, list_slice (nth i MODEL 0) (nth i ENDMDL 0) lines))
    <$> seq 0 (length MODEL).

Definition split_models (name : string) (lines : list string) : result MDL_t :=
  let MODEL := marker_indices "MODEL" lines in
  let ENDMDL := marker_indices "ENDMDL" lines in
  if bool_decide (MODEL = []) && bool_decide (ENDMDL = []) then
    Ok (MDL_list (List.filter is_atom_record lines))
  else if negb (bool_decide (MODEL = [])) && (length MODEL =? length ENDMDL)%nat then
    Ok (MDL_dict (model_blocks MODEL ENDMDL lines))
  else die (corrupted_file name).

(** The four conditions both comprehensions share, evaluated left to right
    with short-circuit [and]: ['OXT' not in line], the alternate-location
    column, the element, the residue name. *)
Definition keep_atom (line : string) : result bool :=
  if contains "OXT" line then Ok false
  else
    altloc ← index line 16;
    Ok ((Ascii.eqb altloc " " || Ascii.eqb altloc "A")
        && negb (String.eqb (lstrip (slice 76 78 line)) "H")
        && negb (String.eqb (slice 17 20 line) "HOH")).

(** The condition of the multi-model comprehension: the record type comes
    first. *)
Definition keep_atom_record (line : string) : result bool :=
  if is_atom_record line then keep_atom line else Ok false.

Definition load_atom_models (name : string) (fc : FileContent)
  : result (list (Z * AtomModel)) :=
  lines ← read_lines name fc;
  MDL ← split_models name lines;
  match MDL with
  | MDL_list l =>
      a_model ← filterM keep_atom l;
      Ok [((-1)%Z, a_model)]
  | MDL_dict d =>
      forM (fun '(idx, block) =>
              a_model ← filterM keep_atom_record block;
              Ok (idx, a_model)) d
  end.

End Loader.

Import Loader.

(* ===================================================================== *)
(** ** External values, tables and collaborators *)
(* ===================================================================== *)

(** Values the module only passes around: floating-point numbers with their
    addition and [float(s)] ([None] when Python raises [ValueError]), the type
    tags of the lookup table, and the results of the geometry collaborators
    with their truth values ([not x] in the source). *)
Class Values : Type := {
  F : Type;
  fadd : F -> F -> F;
  float : string -> option F;
  Tag : Type;
  Angles : Type;
  ContactDict : Type;
  Volume : Type;
  Surface : Type;
  truthy_contact_dict : ContactDict -> bool;
  truthy_volume : Volume -> bool;
}.

(** One entry of the lookup table: radius, type tag, baseline surface,
    baseline volume. *)
Record Props `{Values} : Type := mkProps {
  p_R : F;
  p_Type : Tag;
  p_Surf : F;
  p_Volu : F;
}.
Arguments mkProps {_} p_R p_Type p_Surf p_Volu.

(** [PDB_constants] is not in the sources; the tables it exports are
    parameters: [Radius] maps a residue name (or ['UNDEF']) to a sub-table
    keyed by atom name or element, [AA] and [NT] map residue names to their
    abbreviations, [Radius_H2O] is the water-probe radius. *)
Class Tables `{Values} : Type := {
  Radius : gmap string (gmap string Props);
  AA : gmap string string;
  NT : gmap string string;
  Radius_H2O : F;
}.

(** [k in d] for a dict. *)
Definition has_key {V} (d : gmap string V) (k : string) : bool :=
  bool_decide (is_Some (d !! k)).

(** [d[k]]: raises [KeyError] when the key is absent. *)
Definition getitem {V} (d : gmap string V) (k : string) : result V :=
  match d !! k with
  | Some v => Ok v
  | None => Raise KeyError
  end.

(** Cells and data frames.  A frame keeps its column labels and, for every
    row, the index label the row was created with: selecting rows by a mask
    and concatenating frames keep those labels. *)
Inductive Cell `{Values} : Type :=
  | CStr (s : string)
  | CNum (x : F)
  | CTag (t : Tag)
  | CNaN.

Record DataFrame `{Values} : Type := mkDataFrame {
  df_columns : list string;
  df_rows : list (nat * list Cell);
}.
Arguments mkDataFrame {_} df_columns df_rows.

(** [df.empty] for a frame that has columns. *)
Definition df_empty `{Values} (df : DataFrame) : bool :=
  bool_decide (length (df_rows df) = 0).

(** Position of a column label. *)
Fixpoint column_index (cols : list string) (c : string) : option nat :=
  match cols with
  | [] => None
  | c' :: cols' => if String.eqb c' c then Some 0 else S <$> column_index cols' c
  end.

(** The cell of a row under a column label. *)
Definition cell `{Values} (df : DataFrame) (row : list Cell) (c : string) : option Cell :=
  i ← column_index (df_columns df) c; row !! i.

(** The positions of the requested labels: [KeyError] when one of them is
    not a column. *)
Definition column_positions (have want : list string) : result (list nat) :=
  forM (fun c => match column_index have c with
                 | Some i => Ok i
                 | None => Raise KeyError
                 end) want.

Definition pick_cells `{Values} (positions : list nat) (row : nat * list Cell)
  : nat * list Cell :=
  (row.1, (fun i => default CNaN (row.2 !! i)) <$> positions).

(** [df[[c1, ..., cn]]]: raises [KeyError] when a label is not a column. *)
Definition df_select `{Values} (cols : list string) (df : DataFrame) : result DataFrame :=
  positions ← column_positions (df_columns df) cols;
  Ok (mkDataFrame cols (pick_cells positions <$> df_rows df)).

(** [pd.concat(frames, axis=0)] for frames that carry the same columns, as
    the three partitions do. *)
Definition df_concat `{Values} (frames : list DataFrame) : DataFrame :=
  mkDataFrame (match frames with
               | df :: _ => df_columns df
               | [] => []
               end)
              (concat (df_rows <$> frames)).

(** The value of [dihedral_angle]: [False], or what the collaborator gave. *)
Inductive Dihedral `{Values} : Type :=
  | DFalse
  | DAngles (a : Angles).

(** What a run prints and which collaborators it calls, in order. *)
Inductive Event `{Values} : Type :=
  | EPrint (text : string)
  | EPrintFrame (df : DataFrame)
  | ECall_dihedral_angle (name pdb_file : string) (disable_print : bool)
  | ECall_dotarray_volume (atom_df : DataFrame) (density : bool) (interval : F)
                          (disable_print : bool)
  | ECall_dotarray_surface (ref_fp : string) (contact_df : DataFrame)
                           (contact_dict : ContactDict) (disable_print : bool)
  | ECall_csv_sort (idx : Z) (name : string) (dihedral_angle : Dihedral)
                   (surface : Surface) (volume : Volume) (out_dp : string)
                   (threshold : list F) (compress : bool) (disable_print : bool).

(** The collaborators and the environment.  A collaborator may raise.
    [pdb_dotarray_volume] receives the frame object itself, so the frame as
    the call leaves it is part of what it returns.  [read_file] is the file
    system, [path_stem] is [Path(p).stem], [format_3f] renders [{t:.3f}]. *)
Class Collaborators `{Values} : Type := {
  pdb_dihedral_angle : string -> string -> bool -> result Dihedral;
  pdb_dotarray_volume :
    DataFrame -> bool -> F -> bool -> result (DataFrame * (ContactDict * Volume));
  pdb_dotarray_surface : string -> DataFrame -> ContactDict -> bool -> result Surface;
  pdb_csv_sort : Z -> string -> Dihedral -> Surface -> Volume -> string ->
                 list F -> bool -> bool -> result unit;
  elapsed_s : Z -> F;
  read_file : string -> FileContent;
  path_stem : string -> string;
  format_3f : F -> string;
}.

(** Programs with output: the trace produced so far and the outcome. *)
Record M `{Values} (A : Type) : Type := mkM {
  trace : list Event;
  outcome : result A;
}.
Arguments mkM {_ A} trace outcome.
Arguments trace {_ A} m.
Arguments outcome {_ A} m.

#[global] Instance M_ret `{Values} : MRet M := fun _ a => mkM [] (Ok a).
#[global] Instance M_bind `{Values} : MBind M := fun _ _ f m =>
  match outcome m with
  | Ok a => mkM (trace m ++ trace (f a)) (outcome (f a))
  | Raise e => mkM (trace m) (Raise e)
  end.

(** A pure computation that may raise. *)
Definition lift `{Values} {A} (r : result A) : M A := mkM [] r.

(** [print(text)]. *)
Definition print `{Values} (text : string) : M unit := mkM [EPrint text] (Ok ()).

(** [print(df)]. *)
Definition print_frame `{Values} (df : DataFrame) : M unit := mkM [EPrintFrame df] (Ok ()).

(** A collaborator call: the call is recorded, then its outcome follows. *)
Definition call `{Values} {A} (ev : Event) (r : result A) : M A := mkM [ev] r.

(** [try: body except: handler]. *)
Definition try_except `{Values} (body handler : M unit) : M unit :=
  match outcome body with
  | Ok _ => body
  | Raise _ => mkM (trace body ++ trace handler) (outcome handler)
  end.

(* ===================================================================== *)
(** ** Classification: [parse_atom_model] *)
(* ===================================================================== *)

Module Classifier.

(** The fields the loop reads from an atom line: residue name, atom name,
    element. *)
Definition Res_of (atom : string) : string := lstrip (slice 17 20 atom).
Definition Ana_of (atom : string) : string := strip (slice 12 16 atom).
Definition Ele_of (atom : string) : string := lstrip (slice 76 78 atom).

Section Classifier.
Context `{Tables}.

(** The property tuples the loop appends for one atom (lines 102-122): the
    two [if]s of the standard-residue branch are independent, so the branch
    appends none, one or two tuples; the [else] branch appends one. *)
Definition resolve_properties (Res Ana Ele : string) : result (list Props) :=
  match Radius !! Res with
  | Some sub =>
      amino ← (if has_key AA Res && has_key sub Ana
               then p ← getitem sub Ana; Ok [p]
               else Ok []) : result (list Props);
      nucleo ← (if has_key NT Res
                then first ← index Ana 0;
                     if has_key sub (String first EmptyString)
                     then p ← getitem sub Ele; Ok [p]
                     else Ok []
                else Ok []) : result (list Props);
      Ok (amino ++ nucleo)
  | None =>
      undef ← getitem Radius "UNDEF";
      p ← getitem undef Ele;
      Ok [p]
  end.

(** The six columns every iteration appends to together. *)
Record Site : Type := mkSite {
  s_Chain : string;
  s_ResName : string;
  s_Atom : string;
  s_x : F;
  s_y : F;
  s_z : F;
}.

Definition to_float (s : string) : result F :=
  match float s with
  | Some x => Ok x
  | None => Raise ValueError
  end.

(** One iteration of the loop (lines 89-122): what it appends to the six
    site columns and what it appends to the four property columns. *)
Definition read_atom (atom : string) : result (Site * list Props) :=
  let Res := Res_of atom in
  n ← int (slice 22 26 atom);
  let Num := str_of_int n in
  let Ana := Ana_of atom in
  let Ele := Ele_of atom in
  chain ← index atom 21;
  x ← to_float (slice 30 38 atom);
  y ← to_float (slice 38 46 atom);
  z ← to_float (slice 46 54 atom);
  props ← resolve_properties Res Ana Ele;
  Ok (mkSite (String chain Num) Res Ana x y z, props).

(** The dict of lists [atom_info] after the loop: the site columns grow by
    one entry per atom, the property columns by what the lookup appended. *)
Fixpoint collect (atom_model : list string) : result (list Site * list Props) :=
  match atom_model with
  | [] => Ok ([], [])
  | atom :: rest =>
      '(site, props) ← read_atom atom;
      '(sites, propss) ← collect rest;
      Ok (site :: sites, props ++ propss)
  end.

(** A row of [atom_df]: its index label, the site columns, the property
    columns. *)
Definition Row : Type := nat * (Site * Props).

(** [pd.DataFrame.from_dict(atom_info)]: raises [ValueError] when the
    columns differ in length. *)
Definition from_dict (info : list Site * list Props) : result (list Row) :=
  if (length info.1 =? length info.2)%nat
  then Ok (imap (fun k sp => (k, sp)) (zip info.1 info.2))
  else Raise ValueError.

(** [atom_df['R'] += Radius_H2O]. *)
Definition add_water (row : Row) : Row :=
  let '(k, (s, p)) := row in
  (k, (s, mkProps (fadd (p_R p) Radius_H2O) (p_Type p) (p_Surf p) (p_Volu p))).

(** Modelled from the spec: the constant [DTYPE] is not in the sources; the
    spec calls it one fixed-width floating representation and the source
    names [np.float64], which the numeric columns already have, so the
    conversion keeps every number. *)
Definition astype_DTYPE (x : F) : F := x.

Definition normalise (row : Row) : Row :=
  let '(k, (s, p)) := row in
  (k, (mkSite (s_Chain s) (s_ResName s) (s_Atom s)
         (astype_DTYPE (s_x s)) (astype_DTYPE (s_y s)) (astype_DTYPE (s_z s)),
       mkProps (astype_DTYPE (p_R p)) (p_Type p)
         (astype_DTYPE (p_Surf p)) (astype_DTYPE (p_Volu p)))).

(** The masks [atom_df['ResName'].isin(AA)] and [.isin(NT)]. *)
Definition is_aa (row : Row) : bool := has_key AA (s_ResName row.2.1).
Definition is_nt (row : Row) : bool := has_key NT (s_ResName row.2.1).
Definition is_ns (row : Row) : bool := negb (is_aa row) && negb (is_nt row).

(** The ['Residue'] label: chain, connector, residue name; [abbrev] is the
    remapped residue name, [NaN] for a name the table does not have. *)
Definition label (chain connector : string) (abbrev : option string) : Cell :=
  match abbrev with
  | Some a => CStr (chain +:+ connector +:+ a)
  | None => CNaN
  end.

Definition out_columns : list string :=
  ["Residue"; "Atom"; "x"; "y"; "z"; "R"; "Type"; "Surf"; "Volu"].

(** A row of one of the three returned frames; [residue] is its label. *)
Definition out_row (residue : Cell) (row : Row) : nat * list Cell :=
  let '(k, (s, p)) := row in
  (k, [residue; CStr (s_Atom s); CNum (s_x s); CNum (s_y s); CNum (s_z s);
       CNum (p_R p); CTag (p_Type p); CNum (p_Surf p); CNum (p_Volu p)]).

Definition aa_row (row : Row) : nat * list Cell :=
  out_row (label (s_Chain row.2.1) "-" (AA !! s_ResName row.2.1)) row.
Definition nt_row (row : Row) : nat * list Cell :=
  out_row (label (s_Chain row.2.1) "-" (NT !! s_ResName row.2.1)) row.
Definition ns_row (row : Row) : nat * list Cell :=
  out_row (label (s_Chain row.2.1) ";" (Some (s_ResName row.2.1))) row.

(** [atom_df] as it stands before the partition (lines 88-131). *)
Definition atom_table (atom_model : list string) : result (list Row) :=
  info ← collect atom_model;
  rows ← from_dict info;
  Ok (List.map normalise (List.map add_water rows)).

(** [print(df); print(text, len(part))] for a partition that has rows. *)
Definition show (part : list Row) (df : DataFrame) (text : string) : M unit :=
  if bool_decide (part = []) then mret ()
  else print_frame df;; print (text +:+ " " +:+ str_of_int (Z.of_nat (length part))).

(** Lines 146-148 add a connector string to the ['Chain'] column of each
    part.  A frame built from empty lists has no column of strings: every
    column holds floats, and adding a string to it raises [TypeError].  With
    at least one atom the column holds the chain ids, in each part (also in a
    part without rows), and the addition is a concatenation. *)
Definition merge_chain_and_resname (atom_df : list Row) : result unit :=
  if bool_decide (atom_df = []) then Raise TypeError else Ok ().

Definition parse_atom_model (atom_model : list string) (disable_print : bool)
  : M (DataFrame * DataFrame * DataFrame) :=
  atom_df ← lift (atom_table atom_model);
  let aa := List.filter is_aa atom_df in
  let nt := List.filter is_nt atom_df in
  let ns := List.filter is_ns atom_df in
  lift (merge_chain_and_resname atom_df);;
  let aa_df := mkDataFrame out_columns (aa_row <$> aa) in
  let nt_df := mkDataFrame out_columns (nt_row <$> nt) in
  let ns_df := mkDataFrame out_columns (ns_row <$> ns) in
  (if disable_print then mret ()
   else show aa aa_df "len(amino_acid_df):";;
        show nt nt_df "len(nucleotide_df):";;
        show ns ns_df "len(non_standard_df):");;
  mret (aa_df, nt_df, ns_df).

End Classifier.
End Classifier.

Import Classifier.

(* ===================================================================== *)
(** ** The per-model pipeline: [arip_analyze] and [arip_main] *)
(* ===================================================================== *)

Module Pipeline.
Section Pipeline.
Context `{Tables} `{!Collaborators}.

Definition contact_columns : list string :=
  ["Name"; "x"; "y"; "z"; "R"; "Surf"; "Type"].

Definition skipping_memory (name : string) : string :=
  "Skipping file " +:+ name +:+ " due to insufficient memory or no valid atoms".

(** The body of [arip_analyze]: [None] when it falls off its end, the pair
    [(-1, -1)] when it returns early. *)
Definition arip_analyze_body (idx : Z) (name : string) (atom_model : list string)
    (interval : F) (ref_fp out_dp : string) (threshold : list F)
    (density compress disable_print : bool) : M (option (Z * Z)) :=
  '(aa_df, nt_df, ns_df) ← parse_atom_model atom_model disable_print;
  let pdb_file := join atom_model in
  dihedral_angle ←
    (if negb (df_empty aa_df)
     then call (ECall_dihedral_angle name pdb_file disable_print)
               (pdb_dihedral_angle name pdb_file disable_print)
     else mret DFalse);
  let atom_df := df_concat [aa_df; nt_df; ns_df] in
  '(atom_df, (contact_dict, volume)) ←
    call (ECall_dotarray_volume atom_df density interval disable_print)
         (pdb_dotarray_volume atom_df density interval disable_print);
  if negb (truthy_contact_dict contact_dict) && negb (truthy_volume volume)
  then print (skipping_memory name);; mret (Some ((-1)%Z, (-1)%Z))
  else
    contact_df ← lift (df_select contact_columns atom_df);
    surface ← call (ECall_dotarray_surface ref_fp contact_df contact_dict disable_print)
                   (pdb_dotarray_surface ref_fp contact_df contact_dict disable_print);
    call (ECall_csv_sort idx name dihedral_angle surface volume out_dp threshold
            compress disable_print)
         (pdb_csv_sort idx name dihedral_angle surface volume out_dp threshold
            compress disable_print);;
    mret None.

(** What the decorated [arip_analyze] returns. *)
Inductive Timed : Type :=
  | TFloat (t : F)
  | TTuple (t : F) (a b : Z).

(** Modelled from the spec: the decorator [utils.timer_s] is not in the
    sources; the spec has the elapsed seconds surfaced to the caller on
    success, and the caller's comment has a tuple of three elements, the last
    two of them [-1], on a memory shortage.  [elapsed_s idx] is the time
    measured for the model [idx]. *)
Definition timer_s (idx : Z) (body : M (option (Z * Z))) : M Timed :=
  r ← body;
  mret (match r with
        | None => TFloat (elapsed_s idx)
        | Some (a, b) => TTuple (elapsed_s idx) a b
        end).

Definition arip_analyze (idx : Z) (name : string) (atom_model : list string)
    (interval : F) (ref_fp out_dp : string) (threshold : list F)
    (density compress disable_print : bool) : M Timed :=
  timer_s idx (arip_analyze_body idx name atom_model interval ref_fp out_dp
                 threshold density compress disable_print).

(** The name a model is reported under: the file's for the single model,
    with the model number otherwise. *)
Definition model_name (name : string) (idx : Z) : string :=
  if (idx =? -1)%Z then name else name +:+ "_MODEL_" +:+ str_of_int idx.

Definition skipping_empty (name : string) (idx : Z) : string :=
  "Skipping file " +:+ model_name name idx +:+ " due to no valid atoms".

Definition run_ok (name : string) (idx : Z) (t : F) : string :=
  "The PDB " +:+ model_name name idx +:+ " run OK, time cost: " +:+ format_3f t +:+ "s".

Definition cannot_analyze (name : string) : string :=
  "The file " +:+ name +:+
  " cannot be analyzed, perhaps it contains unsupported format, or no valid atoms".

(** The body of the [for] loop of [arip_main], for one model. *)
Definition process_model (name : string) (interval : F) (ref_fp out_dp : string)
    (threshold : list F) (density compress disable_print : bool)
    (model : Z * AtomModel) : M unit :=
  let '(idx, a_model) := model in
  if bool_decide (a_model = []) then print (skipping_empty name idx)
  else
    t ← arip_analyze idx name a_model interval ref_fp out_dp threshold density
          compress disable_print;
    match t with
    | TFloat t => print (run_ok name idx t)
    | TTuple _ _ _ => mret ()
    end.

(** The [for] loop over the models. *)
Fixpoint model_loop (name : string) (interval : F) (ref_fp out_dp : string)
    (threshold : list F) (density compress disable_print : bool)
    (a_models : list (Z * AtomModel)) : M unit :=
  match a_models with
  | [] => mret ()
  | model :: rest =>
      process_model name interval ref_fp out_dp threshold density compress
        disable_print model;;
      model_loop name interval ref_fp out_dp threshold density compress
        disable_print rest
  end.

Definition arip_main (in_fp out_dp ref_fp : string) (interval : F)
    (threshold : list F) (density compress disable_print : bool) : M unit :=
  let name := path_stem (path_stem in_fp) in
  a_models ← lift (load_atom_models name (read_file in_fp));
  try_except
    (model_loop name interval ref_fp out_dp threshold density compress
       disable_print a_models)
    (print (cannot_analyze name)).

End Pipeline.
End Pipeline.

Import Pipeline.

(* ===================================================================== *)
(** ** Concrete files, tables and collaborators *)
(* ===================================================================== *)

Module Demo.

(** Numbers in thousandths, tags and names as strings, a contact map as a
    list of names (true when it has an entry), a volume as a number (true
    when it is not zero). *)
Definition remove_dot (s : string) : string :=
  string_of_list_ascii (List.filter (fun c => negb (Ascii.eqb c ".")) (list_ascii_of_string s)).

Definition read_thousandths (s : string) : option Z :=
  match int (remove_dot s) with
  | Ok n => Some n
  | Raise _ => None
  end.

Definition values : Values := {|
  F := Z;
  fadd := Z.add;
  float := read_thousandths;
  Tag := string;
  Angles := string;
  ContactDict := list string;
  Volume := Z;
  Surface := Z;
  truthy_contact_dict := fun d => negb (bool_decide (d = []));
  truthy_volume := fun v => negb (v =? 0)%Z;
|}.

Definition entry (r : Z) (t : string) (s v : Z) : @Props values :=
  @mkProps values r t s v.

Definition ALA_table : gmap string (@Props values) :=
  list_to_map [("N", entry 1650 "N3H1" 4400 13900); ("CA", entry 1870 "C4H1" 2300 12000);
               ("C", entry 1760 "C3H0" 1000 9000); ("O", entry 1400 "O1H0" 4500 16000);
               ("CB", entry 1870 "C4H3" 7300 36000)].

Definition A_table : gmap string (@Props values) :=
  list_to_map [("C", entry 1800 "C" 2000 10000); ("N", entry 1600 "N" 3000 11000);
               ("O", entry 1400 "O" 4000 12000); ("P", entry 1900 "P" 1000 20000)].

Definition UNDEF_table : gmap string (@Props values) :=
  list_to_map [("C", entry 1800 "C" 2000 10000); ("N", entry 1600 "N" 3000 11000);
               ("O", entry 1400 "O" 4000 12000); ("ZN", entry 1390 "ZN" 500 9000);
               ("D", entry 1000 "D" 100 1000)].

Definition tables : @Tables values :=
  @Build_Tables values
    (list_to_map [("ALA", ALA_table); ("A", A_table); ("UNDEF", UNDEF_table)])
    (list_to_map [("ALA", "A")])
    (list_to_map [("A", "A")])
    1400%Z.

(** A volume step that adds the [Name] column to the frame it is given and
    finds one contact. *)
Definition name_cell (row : nat * list (@Cell values)) : nat * list (@Cell values) :=
  (row.1, match row.2 with
          | CStr residue :: CStr atom :: _ => CStr (residue +:+ "-" +:+ atom) :: row.2
          | _ => CNaN :: row.2
          end).

Definition naming_volume (df : @DataFrame values) (density : bool) (interval : Z)
    (disable_print : bool)
  : result (@DataFrame values * (list string * Z)) :=
  Ok (@mkDataFrame values ("Name" :: df_columns df) (name_cell <$> df_rows df),
      (["contact"], 5000%Z)).

(** A volume step that leaves the frame as it is and finds one contact. *)
Definition plain_volume (df : @DataFrame values) (density : bool) (interval : Z)
    (disable_print : bool)
  : result (@DataFrame values * (list string * Z)) :=
  Ok (df, (["contact"], 5000%Z)).

(** A volume step that runs out of memory. *)
Definition exhausted_volume (df : @DataFrame values) (density : bool) (interval : Z)
    (disable_print : bool)
  : result (@DataFrame values * (list string * Z)) :=
  Ok (df, ([], 0%Z)).

(** [s.rfind(c)]. *)
Fixpoint rfind (c : ascii) (s : string) : option nat :=
  match s with
  | EmptyString => None
  | String d s' =>
      match rfind c s' with
      | Some i => Some (S i)
      | None => if Ascii.eqb d c then Some 0 else None
      end
  end.

(** [Path(p).stem]: the last component of the path without its last
    suffix; a dot that begins or ends the component starts no suffix. *)
Definition stem (p : string) : string :=
  let name := match rfind "/" p with
              | Some i => String.substring (S i) (String.length p) p
              | None => p
              end in
  match rfind "." name with
  | Some i => if ((0 <? i) && (S i <? String.length name))%nat
              then String.substring 0 i name
              else name
  | None => name
  end.

(** [f'{t:.3f}'] for a time kept in thousandths of a second. *)
Definition format_thousandths (t : Z) : string :=
  let a := Z.abs t in
  let frac := (a mod 1000)%Z in
  (if (t <? 0)%Z then "-" else "") +:+ str_of_int (a / 1000) +:+ "." +:+
  (if (frac <? 10)%Z then "00" else if (frac <? 100)%Z then "0" else "") +:+
  str_of_int frac.

Definition collaborators
    (volume_step : @DataFrame values -> bool -> Z -> bool ->
                   result (@DataFrame values * (list string * Z)))
    (files : string -> FileContent) : @Collaborators values :=
  @Build_Collaborators values
    (fun _ _ _ => Ok (@DAngles values "phi psi"))
    volume_step
    (fun _ _ _ _ => Ok 7000%Z)
    (fun _ _ _ _ _ _ _ _ _ => Ok ())
    (fun _ => 250%Z)
    files
    stem
    format_thousandths.

Definition header : string := "HEADER    DEMO
".
Definition model_1 : string := "MODEL        1
".
Definition model_2 : string := "MODEL        2
".
Definition endmdl : string := "ENDMDL
".
Definition short_atom : string := "ATOM
".
Definition ala_CA : string :=
  "ATOM      2  CA  ALA A   1      11.000  12.000  13.000  1.00 20.00           C  
".
Definition ala_H : string :=
  "ATOM      4  H   ALA A   1      10.000  12.000  13.000  1.00 20.00           H  
".
Definition ala_OXT : string :=
  "ATOM      5  OXT ALA A   1      14.000  12.000  13.000  1.00 20.00           O  
".
Definition water : string :=
  "HETATM    6  O   HOH A 101      21.000  22.000  23.000  1.00 20.00           O  
".
Definition ala_D : string :=
  "ATOM      7  D   ALA A   1      10.500  12.000  13.000  1.00 20.00           D  
".
Definition ade_P : string :=
  "ATOM      8  P     A B   5      31.000  32.000  33.000  1.00 20.00           P  
".
Definition ade_X : string :=
  "ATOM      9  X1    A B   5      31.500  32.000  33.000  1.00 20.00           C  
".
Definition ala_CA_altA : string :=
  "ATOM      3  CA AALA A   1      11.500  12.500  13.500  0.50 20.00           C  
".
Definition ala_H_left : string :=
  "ATOM      4  H   ALA A   1      10.000  12.000  13.000  1.00 20.00          H   
".
Definition zinc : string :=
  "HETATM   10 ZN    ZN A 201      41.000  42.000  43.000  1.00 20.00          ZN  
".


(** A model of three atoms, one of each class, and the three frames the
    classifier returns for it. *)
Definition three_atoms : list string := [ala_CA; ade_P; zinc].

Definition str (s : string) : @Cell values := @CStr values s.
Definition num (x : Z) : @Cell values := @CNum values x.
Definition tag (t : string) : @Cell values := @CTag values t.

Definition aa_row_0 : list (@Cell values) :=
  [str "A1-A"; str "CA"; num 11000; num 12000; num 13000; num 3270;
   tag "C4H1"; num 2300; num 12000].
Definition nt_row_1 : list (@Cell values) :=
  [str "B5-A"; str "P"; num 31000; num 32000; num 33000; num 3300;
   tag "P"; num 1000; num 20000].
Definition ns_row_2 : list (@Cell values) :=
  [str "A201;ZN"; str "ZN"; num 41000; num 42000; num 43000; num 2790;
   tag "ZN"; num 500; num 9000].

Definition aa_frame : @DataFrame values := @mkDataFrame values out_columns [(0, aa_row_0)].
Definition nt_frame : @DataFrame values := @mkDataFrame values out_columns [(1, nt_row_1)].
Definition ns_frame : @DataFrame values := @mkDataFrame values out_columns [(2, ns_row_2)].

(** The frame handed to the volume step for [three_atoms], the same frame
    with the [Name] column, and its reduction to the contact columns. *)
Definition combined_frame : @DataFrame values :=
  @df_concat values [aa_frame; nt_frame; ns_frame].

Definition named_frame : @DataFrame values :=
  @mkDataFrame values ("Name" :: out_columns)
    (name_cell <$> @df_rows values combined_frame).

Definition reduced_frame : @DataFrame values :=
  match @df_select values Pipeline.contact_columns named_frame with
  | Ok df => df
  | Raise _ => named_frame
  end.

(** Three worlds: the volume step adds the [Name] column, leaves the frame
    alone, or runs out of memory; every path leads to the given file. *)
Definition naming_world (file : FileContent) : @Collaborators values :=
  collaborators naming_volume (fun _ => file).
Definition plain_world (file : FileContent) : @Collaborators values :=
  collaborators plain_volume (fun _ => file).
Definition exhausted_world (file : FileContent) : @Collaborators values :=
  collaborators exhausted_volume (fun _ => file).

Definition angles : @Dihedral values := @DAngles values "phi psi".

(** Two explicit models. *)
Definition two_models : list string :=
  [header; model_1; ala_CA; endmdl; model_2; ala_H; ala_CA; endmdl].

(** One explicit model that holds an atom record cut after its record
    name. *)
Definition short_record_file : list string :=
  [header; model_1; short_atom; endmdl].

(** Two pairs of markers, the first [ENDMDL] before the first [MODEL]. *)
Definition misordered_file : list string :=
  [header; endmdl; model_1; ala_CA; model_2; ala_CA; endmdl].

(** The same with a cut atom record in the second block. *)
Definition misordered_short_file : list string :=
  [header; endmdl; model_1; model_2; short_atom; endmdl].

(** More [MODEL] lines than [ENDMDL] lines. *)
Definition unclosed_file : list string :=
  [header; model_1; ala_CA; endmdl; model_2; ala_CA].

(** A file that opens with a [MODEL] line: two [MODEL] lines and one
    [ENDMDL] line in all. *)
Definition marker_first_file : list string :=
  [model_1; ala_CA; endmdl; model_2; ala_CA].

End Demo.

(* ===================================================================== *)
(** ** Vocabulary of the statements *)
(* ===================================================================== *)

Module Notions.

(** [t] occurs in [s]. *)
Definition occurs_in (t s : string) : Prop :=
  exists a b, s = a +:+ t +:+ b.

(** A condition that may raise holds when it evaluates to [True]. *)
Definition holds (r : result bool) : bool :=
  match r with
  | Ok true => true
  | _ => false
  end.

(** A line of an explicit model block is kept. *)
Definition kept (line : string) : bool := holds (keep_atom_record line).

(** An atom record that ends before its alternate-location column: the one
    kind of line on which the admission test raises. *)
Definition too_short (line : string) : bool :=
  is_atom_record line && negb (contains "OXT" line) && (String.length line <=? 16)%nat.

(** The alternate-location indicator of a line. *)
Definition altloc (line : string) : option ascii := String.get 16 line.

(** The atomic site a line describes: chain, residue number, residue name,
    atom name, as the columns hold them. *)
Definition site_of (line : string) : string * string * string * string :=
  (slice 21 22 line, slice 22 26 line, slice 17 20 line, slice 12 16 line).

(** The records a model holds for one atomic site, in the order of the
    file; two equal lines count twice. *)
Definition records_of_site (site : string * string * string * string)
    (a_model : list string) : list string :=
  List.filter (fun l => bool_decide (site_of l = site)) a_model.

(** The model numbers [1..N]. *)
Definition model_numbers (N : nat) : list Z := (fun i => (Z.of_nat i + 1)%Z) <$> seq 0 N.

Section TableNotions.
Context `{Tables}.

(** The sub-table of a residue name, empty for a name the table lacks. *)
Definition sub_table (Res : string) : gmap string Props :=
  default ∅ (Radius !! Res).

(** The first character of a field, as a one-character string. *)
Definition initial (s : string) : option string :=
  match s with
  | String c _ => Some (String c EmptyString)
  | EmptyString => None
  end.

(** Property resolution as the specification words it: by atom name for a
    known amino acid whose sub-table has the atom name; else by element for a
    known nucleotide whose sub-table has the initial of the element; else by
    element from the catch-all bucket. *)
Definition resolve_spec (Res Ana Ele : string) : option Props :=
  if has_key AA Res && has_key (sub_table Res) Ana then sub_table Res !! Ana
  else if has_key NT Res
          && match initial Ele with
             | Some i => has_key (sub_table Res) i
             | None => false
             end
       then sub_table Res !! Ele
  else sub_table "UNDEF" !! Ele.

(** The three ways in which the code resolves exactly one entry. *)
Inductive resolves_by_design : string -> string -> string -> Props -> Prop :=
  | by_atom_name (Res Ana Ele : string) (sub : gmap string Props) (p : Props) :
      Radius !! Res = Some sub -> is_Some (AA !! Res) ->
      sub !! Ana = Some p ->
      resolves_by_design Res Ana Ele p
  | by_element (Res Ana Ele i : string) (sub : gmap string Props) (p : Props) :
      Radius !! Res = Some sub -> is_Some (NT !! Res) ->
      initial Ana = Some i -> is_Some (sub !! i) ->
      sub !! Ele = Some p ->
      resolves_by_design Res Ana Ele p
  | by_catch_all (Res Ana Ele : string) (undef : gmap string Props) (p : Props) :
      Radius !! Res = None ->
      Radius !! "UNDEF" = Some undef -> undef !! Ele = Some p ->
      resolves_by_design Res Ana Ele p.

(** The amino-acid [if] alone. *)
Definition amino_part (sub : gmap string Props) (Res Ana : string) : result (list Props) :=
  if has_key AA Res && has_key sub Ana then p ← getitem sub Ana; Ok [p] else Ok [].

(** The nucleotide [if] alone. *)
Definition nucleo_part (sub : gmap string Props) (Res Ana Ele : string)
  : result (list Props) :=
  if has_key NT Res
  then first ← index Ana 0;
       if has_key sub (String first EmptyString)
       then p ← getitem sub Ele; Ok [p]
       else Ok []
  else Ok [].

(** The column of looked-up property tuples as the loop leaves it, before
    the water radius is added. *)
Definition looked_up (atom_model : list string) : list Props :=
  match collect atom_model with
  | Ok (_, propss) => propss
  | Raise _ => []
  end.

End TableNotions.


Definition is_report_call `{Values} (ev : Event) : bool :=
  match ev with
  | ECall_csv_sort _ _ _ _ _ _ _ _ _ => true
  | _ => false
  end.

Definition is_dihedral_call `{Values} (ev : Event) : bool :=
  match ev with
  | ECall_dihedral_angle _ _ _ => true
  | _ => false
  end.

Definition is_collaborator_call `{Values} (ev : Event) : bool :=
  match ev with
  | EPrint _ | EPrintFrame _ => false
  | _ => true
  end.

Section PipelineNotions.
Context `{Values} `{!Collaborators}.

(** The dihedral step of [arip_analyze]: the collaborator is called only
    for a model that has amino-acid rows. *)
Definition dihedral_step (name : string) (atom_model : list string)
    (disable_print : bool) (aa_df : DataFrame) : result Dihedral :=
  if negb (df_empty aa_df)
  then pdb_dihedral_angle name (join atom_model) disable_print
  else Ok DFalse.

Definition dihedral_events (name : string) (atom_model : list string)
    (disable_print : bool) (aa_df : DataFrame) : list Event :=
  if negb (df_empty aa_df)
  then [ECall_dihedral_angle name (join atom_model) disable_print]
  else [].

(** What [arip_analyze] does once the volume step has returned. *)
Definition after_volume (idx : Z) (name : string) (ref_fp out_dp : string)
    (threshold : list F) (compress disable_print : bool)
    (dihedral_angle : Dihedral) (atom_df : DataFrame)
    (contact_dict : ContactDict) (volume : Volume) : M (option (Z * Z)) :=
  if negb (truthy_contact_dict contact_dict) && negb (truthy_volume volume)
  then print (skipping_memory name);; mret (Some ((-1)%Z, (-1)%Z))
  else
    contact_df ← lift (df_select contact_columns atom_df);
    surface ← call (ECall_dotarray_surface ref_fp contact_df contact_dict disable_print)
                   (pdb_dotarray_surface ref_fp contact_df contact_dict disable_print);
    call (ECall_csv_sort idx name dihedral_angle surface volume out_dp threshold
            compress disable_print)
         (pdb_csv_sort idx name dihedral_angle surface volume out_dp threshold
            compress disable_print);;
    mret None.

(** [arip_analyze] from the call of the volume step on. *)
Definition volume_onwards (idx : Z) (name : string) (interval : F)
    (ref_fp out_dp : string) (threshold : list F)
    (density compress disable_print : bool)
    (dihedral_angle : Dihedral) (atom_df : DataFrame) : M (option (Z * Z)) :=
  '(atom_df', (contact_dict, volume)) ←
    call (ECall_dotarray_volume atom_df density interval disable_print)
         (pdb_dotarray_volume atom_df density interval disable_print);
  after_volume idx name ref_fp out_dp threshold compress disable_print
    dihedral_angle atom_df' contact_dict volume.

End PipelineNotions.

End Notions.

Import Notions.

(* ===================================================================== *)
(** ** Facts about the Python primitives *)
(* ===================================================================== *)

Section PyFacts.

Lemma append_nil_l (s : string) : "" +:+ s = s.
Proof. reflexivity. Qed.

Lemma append_cons (c : ascii) (a b : string) : String c a +:+ b = String c (a +:+ b).
Proof. reflexivity. Qed.

Lemma append_nil_r (s : string) : s +:+ "" = s.
Proof.
  induction s as [|c s IH]; [reflexivity |].
  now rewrite append_cons, IH.
Qed.

Lemma append_assoc (a b c : string) : (a +:+ b) +:+ c = a +:+ b +:+ c.
Proof.
  induction a as [|x a IH]; [reflexivity |].
  now rewrite !append_cons, IH.
Qed.

Lemma length_append (a b : string) :
  String.length (a +:+ b) = String.length a + String.length b.
Proof.
  induction a as [|x a IH]; [reflexivity |].
  rewrite append_cons. simpl. now rewrite IH.
Qed.


Lemma occurs_in_trans (r t s : string) :
  occurs_in r t -> occurs_in t s -> occurs_in r s.
Proof.
  intros (a & b & ->) (a' & b' & ->).
  exists (a' +:+ a), (b +:+ b'). now rewrite !append_assoc.
Qed.








Lemma substring_length (n m : nat) (s : string) :
  String.length (String.substring n m s) <= m.
Proof.
  revert n m. induction s as [|c s IH]; intros n m.
  - destruct n, m; simpl; lia.
  - destruct n as [|n]; [destruct m as [|m] |]; simpl.
    + lia.
    + specialize (IH 0 m). lia.
    + apply IH.
Qed.

Lemma slice_length (a b : nat) (s : string) : String.length (slice a b s) <= b - a.
Proof. apply substring_length. Qed.

(** [lstrip] removes a prefix, [rstrip] a suffix. *)
Lemma lstrip_suffix (s : string) : exists a, s = a +:+ lstrip s.
Proof.
  induction s as [|c s (a & Ha)]; simpl.
  - now exists "".
  - destruct (isspace c).
    + exists (String c a). now rewrite append_cons, <- Ha.
    + now exists "".
Qed.

Lemma rstrip_prefix (s : string) : exists b, s = rstrip s +:+ b.
Proof.
  induction s as [|c s (b & Hb)]; simpl.
  - now exists "".
  - destruct (rstrip s) as [|d r] eqn:E.
    + destruct (isspace c).
      * now exists (String c s).
      * exists s. reflexivity.
    + exists b. now rewrite append_cons, <- Hb.
Qed.

Lemma lstrip_occurs (s : string) : occurs_in (lstrip s) s.
Proof.
  destruct (lstrip_suffix s) as (a & Ha). exists a, "". now rewrite append_nil_r.
Qed.

Lemma rstrip_occurs (s : string) : occurs_in (rstrip s) s.
Proof.
  destruct (rstrip_prefix s) as (b & Hb). exists "", b. now rewrite append_nil_l.
Qed.

Lemma strip_occurs (s : string) : occurs_in (strip s) s.
Proof.
  unfold strip. eapply occurs_in_trans; [apply rstrip_occurs | apply lstrip_occurs].
Qed.


Example slice_in_range : slice 2 5 "abcdefg" = "cde".
Proof. reflexivity. Qed.
Example slice_cut : slice 5 9 "abcdefg" = "fg".
Proof. reflexivity. Qed.
Example slice_beyond : slice 9 12 "abcdefg" = "".
Proof. reflexivity. Qed.
Example index_beyond : index "ATOM" 16 = Raise IndexError.
Proof. reflexivity. Qed.
Example lstrip_element : lstrip " H" = "H" /\ lstrip "H " = "H ".
Proof. split; reflexivity. Qed.
Example strip_atom_name : strip " CA " = "CA" /\ strip "    " = "".
Proof. split; reflexivity. Qed.
Example contains_oxt : contains "OXT" "ATOM     10  OXT ALA" = true.
Proof. reflexivity. Qed.
Example int_resseq : int "  12" = Ok 12%Z /\ int " -3 " = Ok (-3)%Z /\ int "1_0" = Ok 10%Z
                     /\ int "    " = Raise ValueError /\ int "1__0" = Raise ValueError.
Proof. repeat split; reflexivity. Qed.
Example str_of_int_ex : str_of_int 12 = "12" /\ str_of_int (-1) = "-1" /\ str_of_int 0 = "0".
Proof. repeat split; reflexivity. Qed.

End PyFacts.

(* ===================================================================== *)
(** ** Facts about the loader *)
(* ===================================================================== *)

Section LoaderFacts.

Lemma bind_Ok {A B} (a : A) (f : A -> result B) : (Ok a ≫= f) = f a.
Proof. reflexivity. Qed.

Lemma bind_Raise {A B} (e : exn) (f : A -> result B) : (Raise e ≫= f) = Raise e.
Proof. reflexivity. Qed.

Lemma bind_Ok_inv {A B} (m : result A) (f : A -> result B) (b : B) :
  (m ≫= f) = Ok b -> exists a, m = Ok a /\ f a = Ok b.
Proof. destruct m as [a|e]; [eauto | discriminate]. Qed.

(** A comprehension that returns has kept exactly those elements on which its
    condition holds, in order. *)
Lemma filterM_Ok {A} (p : A -> result bool) (l r : list A) :
  filterM p l = Ok r -> r = List.filter (fun x => holds (p x)) l.
Proof.
  revert r. induction l as [|x l IH]; intros r Hr; simpl in Hr.
  - now inversion Hr.
  - apply bind_Ok_inv in Hr as (b & Hb & Hr).
    apply bind_Ok_inv in Hr as (r' & Hr' & Hr).
    inversion Hr; subst. simpl. rewrite Hb, (IH r' Hr').
    now destruct b.
Qed.

(** A comprehension whose condition raises on no element returns. *)
Lemma filterM_total {A} (p : A -> result bool) (l : list A) :
  Forall (fun x => is_ok (p x) = true) l ->
  filterM p l = Ok (List.filter (fun x => holds (p x)) l).
Proof.
  induction 1 as [|x l Hx _ IH]; simpl; [reflexivity |].
  destruct (p x) as [b|e]; [| discriminate].
  rewrite bind_Ok, IH, bind_Ok. now destruct b.
Qed.

Lemma forM_total {A B} (f : A -> result B) (g : A -> B) (l : list A) :
  Forall (fun x => f x = Ok (g x)) l -> forM f l = Ok (g <$> l).
Proof.
  induction 1 as [|x l Hx _ IH]; simpl; [reflexivity |].
  now rewrite Hx, bind_Ok, IH, bind_Ok.
Qed.

Lemma forM_fmap_total {A B C} (f : B -> result C) (g : A -> B) (h : A -> C)
    (l : list A) :
  Forall (fun x => f (g x) = Ok (h x)) l -> forM f (g <$> l) = Ok (h <$> l).
Proof.
  induction 1 as [|x l Hx _ IH]; [reflexivity |].
  rewrite !fmap_cons. cbn [forM].
  now rewrite Hx, bind_Ok, IH, bind_Ok.
Qed.

Lemma forM_Ok_elem {A B} (f : A -> result B) (l : list A) (r : list B) (y : B) :
  forM f l = Ok r -> y ∈ r -> exists x, x ∈ l /\ f x = Ok y.
Proof.
  revert r. induction l as [|x l IH]; intros r Hr Hy; simpl in Hr.
  - inversion Hr; subst. inversion Hy.
  - apply bind_Ok_inv in Hr as (y' & Hy' & Hr).
    apply bind_Ok_inv in Hr as (r' & Hr' & Hr).
    inversion Hr; subst. apply elem_of_cons in Hy as [-> | Hy].
    + exists x. split; [left | assumption].
    + destruct (IH r' Hr' Hy) as (x' & Hx' & Hf). exists x'. split; [now right | assumption].
Qed.

(** The admission test of the blocks raises on too-short atom records only,
    and then with [IndexError]. *)
Lemma get_None_length (s : string) (n : nat) :
  String.get n s = None <-> String.length s <= n.
Proof.
  revert n. induction s as [|c s IH]; intros n; simpl.
  - split; [lia | reflexivity].
  - destruct n as [|n]; simpl.
    + split; [discriminate | lia].
    + rewrite IH. lia.
Qed.

Lemma keep_atom_record_raises (line : string) (e : exn) :
  keep_atom_record line = Raise e <-> too_short line = true /\ e = IndexError.
Proof.
  unfold keep_atom_record, too_short, keep_atom, index.
  destruct (is_atom_record line); simpl; [| split; [discriminate | intros [? _]; discriminate]].
  destruct (contains "OXT" line); simpl; [split; [discriminate | intros [? _]; discriminate] |].
  destruct (String.get 16 line) as [c|] eqn:E; simpl.
  - split; [discriminate |]. intros [Hlen _]. apply Nat.leb_le, get_None_length in Hlen. congruence.
  - apply get_None_length in E. split.
    + intros Hr. inversion Hr. split; [now apply Nat.leb_le | reflexivity].
    + now intros [_ ->].
Qed.

Lemma keep_atom_record_ok (line : string) :
  too_short line = false -> is_ok (keep_atom_record line) = true.
Proof.
  intros Hs. destruct (keep_atom_record line) as [b|e] eqn:E; [reflexivity |].
  apply keep_atom_record_raises in E as [E _]. congruence.
Qed.

(** What a kept line satisfies, in either branch of the loader. *)
Lemma keep_atom_true (line : string) :
  keep_atom line = Ok true ->
  contains "OXT" line = false /\
  (altloc line = Some " "%char \/ altloc line = Some "A"%char) /\
  lstrip (slice 76 78 line) <> "H" /\
  slice 17 20 line <> "HOH".
Proof.
  unfold keep_atom, index, altloc.
  destruct (contains "OXT" line); [discriminate |].
  destruct (String.get 16 line) as [c|]; [| discriminate].
  rewrite bind_Ok. intros Hk. injection Hk as Hb.
  apply andb_true_iff in Hb as [Hb Hres]. apply andb_true_iff in Hb as [Halt Hele].
  repeat split.
  - apply orb_true_iff in Halt as [Ha | Ha]; apply Ascii.eqb_eq in Ha; subst; auto.
  - apply negb_true_iff, String.eqb_neq in Hele. exact Hele.
  - apply negb_true_iff, String.eqb_neq in Hres. exact Hres.
Qed.

Lemma keep_atom_record_true (line : string) :
  keep_atom_record line = Ok true -> is_atom_record line = true /\ keep_atom line = Ok true.
Proof.
  unfold keep_atom_record. destruct (is_atom_record line); [auto | discriminate].
Qed.

Lemma holds_true (r : result bool) : holds r = true -> r = Ok true.
Proof. destruct r as [[|]|]; simpl; congruence. Qed.








(** A record repeated in the file is kept as often as it stands there. *)
Example repeated_record_is_kept_twice :
  load_atom_models "demo" (Text [Demo.header; Demo.ala_CA_altA; Demo.ala_CA_altA])
  = Ok [((-1)%Z, [Demo.ala_CA_altA; Demo.ala_CA_altA])] /\
  length (records_of_site (site_of Demo.ala_CA_altA) [Demo.ala_CA_altA; Demo.ala_CA_altA]) = 2.
Proof. split; reflexivity. Qed.

(** The element is compared after its leading blanks are dropped only: a
    hydrogen whose symbol is written flush left in columns 77-78 is kept, and
    the classifier reads its element with the trailing blank. *)
Example left_justified_hydrogen_is_kept :
  String.length Demo.ala_H_left = 81 /\
  slice 76 78 Demo.ala_H_left = "H " /\
  keep_atom Demo.ala_H_left = Ok true /\
  Ele_of Demo.ala_H_left = "H ".
Proof. repeat split; reflexivity. Qed.


(** A file without markers gives the one model numbered -1, made of its
    atom records that pass the filter. *)
Example single_model_file :
  load_atom_models "demo"
    (Text [Demo.header; Demo.water; Demo.ala_H; Demo.ala_CA; "TER
"; Demo.zinc; "END
"])
  = Ok [((-1)%Z, [Demo.ala_CA; Demo.zinc])].
Proof. reflexivity. Qed.

End LoaderFacts.

(* ===================================================================== *)
(** ** Facts about model extraction *)
(* ===================================================================== *)

Section ExtractionFacts.

Lemma marker_indices_lookup (marker : string) (lines : list string) (b : nat) :
  b ∈ marker_indices marker lines ->
  exists l, lines !! b = Some l /\ startswith l marker = true.
Proof.
  unfold marker_indices. intros Hb.
  apply list_elem_of_In, filter_In in Hb as [_ Hb].
  destruct (lines !! b) as [l|]; [eauto | discriminate].
Qed.

Lemma prefix_cons (a c : ascii) (p s : string) :
  String.prefix (String a p) (String c s)
  = if ascii_dec a c then String.prefix p s else false.
Proof. reflexivity. Qed.

(** A [MODEL] line is no atom record. *)
Lemma model_line_not_atom (l : string) :
  startswith l "MODEL" = true -> is_atom_record l = false.
Proof.
  unfold startswith, is_atom_record. destruct l as [|c l]; [discriminate |].
  rewrite !prefix_cons.
  destruct (ascii_dec "M" c) as [<- | ]; [intros _ | discriminate].
  destruct (ascii_dec "A" "M") as [E | _]; [discriminate E |].
  destruct (ascii_dec "H" "M") as [E | _]; [discriminate E |].
  reflexivity.
Qed.

Lemma list_slice_empty {A} (b e : nat) (l : list A) : e <= b -> list_slice b e l = [].
Proof. intros Hle. unfold list_slice. now replace (e - b) with 0 by lia. Qed.

Lemma list_slice_lookup {A} (b e : nat) (l : list A) (x : A) :
  x ∈ list_slice b e l -> exists j, b <= j < e /\ l !! j = Some x.
Proof.
  unfold list_slice. intros Hx.
  apply elem_of_take in Hx as (i & Hi & Hlt).
  rewrite lookup_drop in Hi. exists (b + i). split; [lia | exact Hi].
Qed.

Lemma list_slice_elem {A} (b e : nat) (l : list A) (x : A) :
  x ∈ list_slice b e l -> x ∈ l.
Proof.
  intros Hx. apply list_slice_lookup in Hx as (j & _ & Hj).
  eapply list_elem_of_lookup_2, Hj.
Qed.

(** A slice that starts on a line loses that line when it starts one
    further. *)
Lemma list_slice_head {A} (b e : nat) (l : list A) (x : A) :
  l !! b = Some x -> b < e -> list_slice b e l = x :: list_slice (S b) e l.
Proof.
  intros Hb Hlt. unfold list_slice.
  rewrite (drop_S l x b Hb). replace (e - b) with (S (e - S b)) by lia.
  reflexivity.
Qed.

(** The lines a block keeps lie strictly after its [MODEL] line. *)
Lemma kept_after_marker (lines : list string) (b e : nat) :
  b ∈ marker_indices "MODEL" lines ->
  List.filter kept (list_slice b e lines)
  = List.filter kept (list_slice (S b) e lines).
Proof.
  intros Hb. apply marker_indices_lookup in Hb as (l & Hl & Hstart).
  destruct (Nat.le_gt_cases e b) as [Hle | Hlt].
  - rewrite !list_slice_empty by lia. reflexivity.
  - rewrite (list_slice_head b e lines l Hl Hlt). simpl.
    unfold kept at 1, keep_atom_record.
    now rewrite (model_line_not_atom l Hstart).
Qed.

Lemma split_models_explicit (name : string) (lines : list string) :
  marker_indices "MODEL" lines <> [] ->
  length (marker_indices "MODEL" lines) = length (marker_indices "ENDMDL" lines) ->
  split_models name lines
  = Ok (MDL_dict (model_blocks (marker_indices "MODEL" lines)
                               (marker_indices "ENDMDL" lines) lines)).
Proof.
  intros Hne Hlen. unfold split_models.
  rewrite (bool_decide_eq_false_2 _ Hne). simpl.
  now rewrite Hlen, Nat.eqb_refl.
Qed.

Lemma split_models_unequal (name : string) (lines : list string) :
  length (marker_indices "MODEL" lines) <> length (marker_indices "ENDMDL" lines) ->
  split_models name lines = Raise (SystemExit (corrupted_file name)).
Proof.
  intros Hlen. unfold split_models.
  destruct (bool_decide (marker_indices "MODEL" lines = [])) eqn:EM;
    destruct (bool_decide (marker_indices "ENDMDL" lines = [])) eqn:EE; simpl.
  - apply bool_decide_eq_true_1 in EM, EE. rewrite EM, EE in Hlen. now contradict Hlen.
  - reflexivity.
  - apply Nat.eqb_neq in Hlen. now rewrite Hlen.
  - apply Nat.eqb_neq in Hlen. now rewrite Hlen.
Qed.

(** The models of a file with explicit blocks whose atom records all reach
    the alternate-location column: one per [MODEL] line, numbered from 1,
    holding the kept lines of the slice from the [i]-th [MODEL] line to
    the [i]-th [ENDMDL] line. *)
Lemma load_explicit (name : string) (all_lines : list string) :
  let lines := tail all_lines in
  let MODEL := marker_indices "MODEL" lines in
  let ENDMDL := marker_indices "ENDMDL" lines in
  MODEL <> [] -> length MODEL = length ENDMDL ->
  Forall (fun l => too_short l = false) lines ->
  load_atom_models name (Text all_lines)
  = Ok ((fun i => ((Z.of_nat i + 1)%Z,
                   List.filter kept (list_slice (nth i MODEL 0) (nth i ENDMDL 0) lines)))
          <$> seq 0 (length MODEL)).
Proof.
  intros lines MODEL ENDMDL Hne Hlen Hwide.
  unfold load_atom_models, read_lines. rewrite bind_Ok.
  fold lines. rewrite (split_models_explicit name lines Hne Hlen), bind_Ok.
  fold MODEL ENDMDL. unfold model_blocks.
  apply forM_fmap_total. apply Forall_forall. intros i _.
  rewrite filterM_total; [reflexivity |].
  apply Forall_forall. intros l Hl. apply list_slice_elem in Hl.
  apply keep_atom_record_ok. rewrite Forall_forall in Hwide. now apply Hwide.
Qed.

End ExtractionFacts.

Section ExtractionClaims.

(** C5 (amended): for a file whose lines after the first hold [N] [MODEL] and
    [N] [ENDMDL] lines, [N] not zero, and no atom record that ends before its
    alternate-location column, the loader returns exactly [N] models numbered
    1..N in file order, and the [i]-th model holds, in order, the kept
    lines strictly between the [i]-th [MODEL] line and the [i]-th [ENDMDL]
    line. *)
Theorem explicit_models_between_markers (name : string) (all_lines : list string) (N : nat) :
  length (marker_indices "MODEL" (tail all_lines)) = N ->
  length (marker_indices "ENDMDL" (tail all_lines)) = N ->
  N ≠ 0 ->
  Forall (fun l => too_short l = false) (tail all_lines) ->
  exists models,
    load_atom_models name (Text all_lines) = Ok models /\
    models.*1 = model_numbers N /\
    forall i, i < N ->
      exists b e a_model,
        marker_indices "MODEL" (tail all_lines) !! i = Some b /\
        marker_indices "ENDMDL" (tail all_lines) !! i = Some e /\
        models !! i = Some ((Z.of_nat i + 1)%Z, a_model) /\
        a_model = List.filter kept (list_slice (S b) e (tail all_lines)) /\
        forall line, line ∈ a_model ->
          exists j, b < j < e /\ tail all_lines !! j = Some line.
Proof.
  set (lines := tail all_lines).
  set (MODEL := marker_indices "MODEL" lines).
  set (ENDMDL := marker_indices "ENDMDL" lines).
  intros HM HE HN Hwide.
  assert (Hne : MODEL ≠ []) by (intros E; rewrite E in HM; simpl in HM; lia).
  assert (Hlen : length MODEL = length ENDMDL) by lia.
  eexists. split; [apply (load_explicit name all_lines Hne Hlen Hwide) |].
  fold lines MODEL ENDMDL. rewrite HM. split.
  - rewrite <- list_fmap_compose. reflexivity.
  - intros i Hi.
    destruct (lookup_lt_is_Some_2 MODEL i) as [b Hb]; [lia |].
    destruct (lookup_lt_is_Some_2 ENDMDL i) as [e He]; [lia |].
    exists b, e, (List.filter kept (list_slice (S b) e lines)).
    repeat split; try assumption.
    + rewrite list_lookup_fmap, lookup_seq_lt by lia. simpl.
      rewrite (nth_lookup_Some _ _ _ _ Hb), (nth_lookup_Some _ _ _ _ He).
      rewrite kept_after_marker; [reflexivity |].
      eapply list_elem_of_lookup_2, Hb.
    + intros line Hl. apply list_elem_of_In, filter_In in Hl as [Hl _].
      apply list_elem_of_In, list_slice_lookup in Hl as (j & Hj & Hline).
      exists j. split; [lia | exact Hline].
Qed.

Lemma explicit_models_between_markers_witness :
  exists models,
    load_atom_models "demo" (Text Demo.two_models) = Ok models /\
    models.*1 = [1%Z; 2%Z] /\
    forall i, i < 2 ->
      exists b e a_model,
        marker_indices "MODEL" (tail Demo.two_models) !! i = Some b /\
        marker_indices "ENDMDL" (tail Demo.two_models) !! i = Some e /\
        models !! i = Some ((Z.of_nat i + 1)%Z, a_model) /\
        a_model = List.filter kept (list_slice (S b) e (tail Demo.two_models)) /\
        forall line, line ∈ a_model ->
          exists j, b < j < e /\ tail Demo.two_models !! j = Some line.
Proof.
  apply (explicit_models_between_markers "demo" Demo.two_models 2).
  - reflexivity.
  - reflexivity.
  - lia.
  - repeat constructor.
Defined.

(** The claim C5 fails as it stands: one matched pair of markers around an
    atom record of four characters, and the loader raises instead of
    returning one model. *)
Lemma short_record_breaks_extraction :
  marker_indices "MODEL" (tail Demo.short_record_file) = [0] /\
  marker_indices "ENDMDL" (tail Demo.short_record_file) = [2] /\
  load_atom_models "demo" (Text Demo.short_record_file) = Raise IndexError.
Proof. repeat split; reflexivity. Qed.

(** C10 (amended): for a file whose lines after the first hold as many
    [ENDMDL] as [MODEL] lines, at least one, and no atom record that ends
    before its alternate-location column, the loader pairs the [j]-th [MODEL]
    line with the [j]-th [ENDMDL] line by position alone; when the [i]-th
    [ENDMDL] line comes before the [i]-th [MODEL] line, loading succeeds all
    the same and the [i]-th model has no line. *)
Theorem misordered_pair_gives_empty_model (name : string) (all_lines : list string)
    (i b e : nat) :
  length (marker_indices "MODEL" (tail all_lines))
  = length (marker_indices "ENDMDL" (tail all_lines)) ->
  marker_indices "MODEL" (tail all_lines) !! i = Some b ->
  marker_indices "ENDMDL" (tail all_lines) !! i = Some e ->
  e < b ->
  Forall (fun l => too_short l = false) (tail all_lines) ->
  exists models,
    load_atom_models name (Text all_lines) = Ok models /\
    length models = length (marker_indices "MODEL" (tail all_lines)) /\
    (forall j bj ej,
       marker_indices "MODEL" (tail all_lines) !! j = Some bj ->
       marker_indices "ENDMDL" (tail all_lines) !! j = Some ej ->
       models !! j = Some ((Z.of_nat j + 1)%Z,
                           List.filter kept (list_slice bj ej (tail all_lines)))) /\
    models !! i = Some ((Z.of_nat i + 1)%Z, []).
Proof.
  set (lines := tail all_lines).
  set (MODEL := marker_indices "MODEL" lines).
  set (ENDMDL := marker_indices "ENDMDL" lines).
  intros Hlen Hb He Hlt Hwide.
  assert (Hne : MODEL ≠ []) by (intros E; rewrite E in Hb; discriminate).
  eexists. split; [apply (load_explicit name all_lines Hne Hlen Hwide) |].
  fold lines MODEL ENDMDL.
  assert (Hpair : forall j bj ej, MODEL !! j = Some bj -> ENDMDL !! j = Some ej ->
            ((fun k => ((Z.of_nat k + 1)%Z,
                        List.filter kept
                          (list_slice (nth k MODEL 0) (nth k ENDMDL 0) lines)))
               <$> seq 0 (length MODEL)) !! j
            = Some ((Z.of_nat j + 1)%Z, List.filter kept (list_slice bj ej lines))).
  { intros j bj ej Hbj Hej.
    rewrite list_lookup_fmap, lookup_seq_lt by (eapply lookup_lt_Some, Hbj). simpl.
    now rewrite (nth_lookup_Some _ _ _ _ Hbj), (nth_lookup_Some _ _ _ _ Hej). }
  repeat split.
  - now rewrite length_fmap, length_seq.
  - exact Hpair.
  - etrans; [apply (Hpair i b e Hb He) |].
    rewrite list_slice_empty by lia. reflexivity.
Qed.

Lemma misordered_pair_gives_empty_model_witness :
  exists models,
    load_atom_models "demo" (Text Demo.misordered_file) = Ok models /\
    length models = length (marker_indices "MODEL" (tail Demo.misordered_file)) /\
    (forall j bj ej,
       marker_indices "MODEL" (tail Demo.misordered_file) !! j = Some bj ->
       marker_indices "ENDMDL" (tail Demo.misordered_file) !! j = Some ej ->
       models !! j = Some ((Z.of_nat j + 1)%Z,
                           List.filter kept
                             (list_slice bj ej (tail Demo.misordered_file)))) /\
    models !! 0 = Some (1%Z, []).
Proof.
  apply (misordered_pair_gives_empty_model "demo" Demo.misordered_file 0 1 0).
  - reflexivity.
  - reflexivity.
  - reflexivity.
  - lia.
  - repeat constructor.
Defined.

(** The claim C10 fails as it stands: the first [ENDMDL] line comes before
    the first [MODEL] line, the counts are equal, and the loader raises
    because of the cut atom record of the second block. *)
Lemma misordered_file_may_still_raise :
  marker_indices "MODEL" (tail Demo.misordered_short_file) = [1; 2] /\
  marker_indices "ENDMDL" (tail Demo.misordered_short_file) = [0; 4] /\
  load_atom_models "demo" (Text Demo.misordered_short_file) = Raise IndexError.
Proof. repeat split; reflexivity. Qed.

End ExtractionClaims.

(* ===================================================================== *)
(** ** Facts about property resolution *)
(* ===================================================================== *)

Section ResolutionFacts.
Context `{Tables}.

Lemma has_key_Some {V} (d : gmap string V) (k : string) (v : V) :
  d !! k = Some v -> has_key d k = true.
Proof. intros Hk. unfold has_key. apply bool_decide_eq_true_2. eauto. Qed.

Lemma has_key_None {V} (d : gmap string V) (k : string) :
  d !! k = None -> has_key d k = false.
Proof.
  intros Hk. unfold has_key. apply bool_decide_eq_false_2.
  rewrite Hk. intros [? ?]. discriminate.
Qed.

Lemma has_key_is_Some {V} (d : gmap string V) (k : string) :
  has_key d k = true <-> is_Some (d !! k).
Proof. unfold has_key. apply bool_decide_eq_true. Qed.

Lemma getitem_Some {V} (d : gmap string V) (k : string) (v : V) :
  d !! k = Some v -> getitem d k = Ok v.
Proof. intros Hk. unfold getitem. now rewrite Hk. Qed.

Lemma getitem_None {V} (d : gmap string V) (k : string) :
  d !! k = None -> getitem d k = Raise KeyError.
Proof. intros Hk. unfold getitem. now rewrite Hk. Qed.

Lemma index_0 (s : string) :
  index s 0 = match s with
              | String c _ => Ok c
              | EmptyString => Raise IndexError
              end.
Proof. now destruct s. Qed.

Lemma resolve_properties_standard (Res Ana Ele : string) (sub : gmap string Props) :
  Radius !! Res = Some sub ->
  resolve_properties Res Ana Ele
  = (amino ← amino_part sub Res Ana; nucleo ← nucleo_part sub Res Ana Ele;
     Ok (amino ++ nucleo)).
Proof. intros HR. unfold resolve_properties. now rewrite HR. Qed.

Lemma resolve_properties_undef (Res Ana Ele : string) :
  Radius !! Res = None ->
  resolve_properties Res Ana Ele
  = (undef ← getitem Radius "UNDEF"; p ← getitem undef Ele; Ok [p]).
Proof. intros HR. unfold resolve_properties. now rewrite HR. Qed.

(** The amino-acid [if] appends the entry of the atom name, or nothing. *)
Lemma amino_part_cases (sub : gmap string Props) (Res Ana : string) :
  (exists p, is_Some (AA !! Res) /\ sub !! Ana = Some p /\ amino_part sub Res Ana = Ok [p])
  \/ ((AA !! Res = None \/ sub !! Ana = None) /\ amino_part sub Res Ana = Ok []).
Proof.
  unfold amino_part.
  destruct (AA !! Res) as [a|] eqn:EA.
  - rewrite (has_key_Some _ _ _ EA). simpl.
    destruct (sub !! Ana) as [p|] eqn:ES.
    + left. exists p. rewrite (has_key_Some _ _ _ ES), (getitem_Some _ _ _ ES). eauto.
    + right. rewrite (has_key_None _ _ ES). auto.
  - right. rewrite (has_key_None _ _ EA). auto.
Qed.

(** The nucleotide [if] appends the entry of the element when the first
    character of the atom name is a key, raises when the atom name is empty
    or the element is no key, and appends nothing otherwise. *)
Lemma nucleo_part_Ok (sub : gmap string Props) (Res Ana Ele : string) (ps : list Props) :
  nucleo_part sub Res Ana Ele = Ok ps ->
  (exists i p, ps = [p] /\ is_Some (NT !! Res) /\ initial Ana = Some i /\
               is_Some (sub !! i) /\ sub !! Ele = Some p)
  \/ (ps = [] /\ (NT !! Res = None \/ exists i, initial Ana = Some i /\ sub !! i = None)).
Proof.
  unfold nucleo_part.
  destruct (NT !! Res) as [a|] eqn:EN.
  - rewrite (has_key_Some _ _ _ EN), index_0.
    destruct Ana as [|c rest]; [discriminate |]. rewrite bind_Ok.
    destruct (sub !! String c "") as [q|] eqn:EI.
    + rewrite (has_key_Some _ _ _ EI).
      destruct (sub !! Ele) as [p|] eqn:EE.
      * rewrite (getitem_Some _ _ _ EE), bind_Ok. intros Hp. injection Hp as <-.
        left. exists (String c ""), p. rewrite EI. eauto 10.
      * rewrite (getitem_None _ _ EE). discriminate.
    + rewrite (has_key_None _ _ EI). intros Hp. injection Hp as <-.
      right. split; [reflexivity |]. right. exists (String c ""). auto.
  - rewrite (has_key_None _ _ EN). intros Hp. injection Hp as <-. auto.
Qed.

Lemma nucleo_part_by_element (sub : gmap string Props) (Res Ana Ele i : string) (p : Props) :
  is_Some (NT !! Res) -> initial Ana = Some i -> is_Some (sub !! i) ->
  sub !! Ele = Some p ->
  nucleo_part sub Res Ana Ele = Ok [p].
Proof.
  intros [a EN] Hi [q EI] EE. unfold nucleo_part.
  rewrite (has_key_Some _ _ _ EN), index_0.
  destruct Ana as [|c rest]; [discriminate |]. injection Hi as <-.
  rewrite bind_Ok, (has_key_Some _ _ _ EI), (getitem_Some _ _ _ EE). reflexivity.
Qed.

Lemma nucleo_part_not_nucleotide (sub : gmap string Props) (Res Ana Ele : string) :
  NT !! Res = None -> nucleo_part sub Res Ana Ele = Ok [].
Proof. intros EN. unfold nucleo_part. now rewrite (has_key_None _ _ EN). Qed.

(** With disjoint name sets, one atom appends at most one tuple. *)
Lemma resolve_properties_at_most_one (Res Ana Ele : string) (ps : list Props) :
  AA ##ₘ NT ->
  resolve_properties Res Ana Ele = Ok ps -> length ps <= 1.
Proof.
  intros Hdisj Hr. destruct (Radius !! Res) as [sub|] eqn:ER.
  - rewrite (resolve_properties_standard _ _ _ _ ER) in Hr.
    apply bind_Ok_inv in Hr as (amino & Ha & Hr).
    apply bind_Ok_inv in Hr as (nucleo & Hn & Hr). injection Hr as <-.
    destruct (amino_part_cases sub Res Ana) as [(p & HAA & _ & Ha') | (_ & Ha')];
      rewrite Ha' in Ha; injection Ha as <-.
    + assert (EN : NT !! Res = None).
      { destruct HAA as [a EA]. destruct (NT !! Res) eqn:EN; [| reflexivity].
        exfalso. exact (proj1 (map_disjoint_spec AA NT) Hdisj _ _ _ EA EN). }
      rewrite (nucleo_part_not_nucleotide _ _ _ _ EN) in Hn. injection Hn as <-.
      simpl. lia.
    + apply nucleo_part_Ok in Hn as [(i & p & -> & _) | (-> & _)]; simpl; lia.
  - rewrite (resolve_properties_undef _ _ _ ER) in Hr.
    apply bind_Ok_inv in Hr as (undef & _ & Hr).
    apply bind_Ok_inv in Hr as (p & _ & Hr). injection Hr as <-. simpl. lia.
Qed.

End ResolutionFacts.

Section ResolutionClaims.
Context `{Tables}.

Lemma getitem_Ok_inv {V} (d : gmap string V) (k : string) (v : V) :
  getitem d k = Ok v -> d !! k = Some v.
Proof. unfold getitem. destruct (d !! k); congruence. Qed.

Lemma disjoint_not_nucleotide (Res : string) :
  AA ##ₘ NT -> is_Some (AA !! Res) -> NT !! Res = None.
Proof.
  intros Hdisj [a EA]. destruct (NT !! Res) eqn:EN; [| reflexivity].
  exfalso. exact (proj1 (map_disjoint_spec AA NT) Hdisj _ _ _ EA EN).
Qed.

Lemma disjoint_not_amino (Res : string) :
  AA ##ₘ NT -> is_Some (NT !! Res) -> AA !! Res = None.
Proof.
  intros Hdisj [a EN]. destruct (AA !! Res) eqn:EA; [| reflexivity].
  exfalso. exact (proj1 (map_disjoint_spec AA NT) Hdisj _ _ _ EA EN).
Qed.

(** C2 (amended): with no residue name both an amino acid and a nucleotide,
    the lookup appends exactly the one tuple [p] for an atom precisely in
    three cases: the residue name is a key of the table and a known amino
    acid, and [p] is the entry of the atom name in its sub-table; the residue
    name is a key of the table and a known nucleotide, the first character
    of the atom name is a key of its sub-table, and [p] is the entry of the
    element there; the residue name is no key of the table, and [p] is the
    entry of the element in the catch-all bucket. *)
Theorem resolution_three_way (Res Ana Ele : string) (p : Props) :
  AA ##ₘ NT ->
  (resolve_properties Res Ana Ele = Ok [p] <-> resolves_by_design Res Ana Ele p).
Proof.
  intros Hdisj. split.
  - intros Hr. destruct (Radius !! Res) as [sub|] eqn:ER.
    + rewrite (resolve_properties_standard _ _ _ _ ER) in Hr.
      apply bind_Ok_inv in Hr as (amino & Ha & Hr).
      apply bind_Ok_inv in Hr as (nucleo & Hn & Hr). injection Hr as Hr.
      destruct (amino_part_cases sub Res Ana) as [(q & HAA & Hq & Ha') | (_ & Ha')];
        rewrite Ha' in Ha; injection Ha as <-.
      * rewrite (nucleo_part_not_nucleotide _ _ _ _ (disjoint_not_nucleotide _ Hdisj HAA)) in Hn.
        injection Hn as <-. injection Hr as ->.
        eapply by_atom_name; eassumption.
      * apply nucleo_part_Ok in Hn as [(i & q & -> & HNT & Hi & Hsub & Hq) | (-> & _)];
          [| discriminate].
        injection Hr as ->. eapply by_element; eassumption.
    + rewrite (resolve_properties_undef _ _ _ ER) in Hr.
      apply bind_Ok_inv in Hr as (undef & Hu & Hr).
      apply bind_Ok_inv in Hr as (q & Hq & Hr). injection Hr as ->.
      eapply by_catch_all; eauto using getitem_Ok_inv.
  - intros [Res' Ana' Ele' sub q ER HAA Hq
           | Res' Ana' Ele' i sub q ER HNT Hi Hsub Hq
           | Res' Ana' Ele' undef q ER Hu Hq].
    + rewrite (resolve_properties_standard _ _ _ _ ER).
      rewrite (nucleo_part_not_nucleotide _ _ _ _ (disjoint_not_nucleotide _ Hdisj HAA)).
      unfold amino_part. destruct HAA as [a EA].
      rewrite (has_key_Some _ _ _ EA), (has_key_Some _ _ _ Hq), (getitem_Some _ _ _ Hq).
      reflexivity.
    + rewrite (resolve_properties_standard _ _ _ _ ER).
      rewrite (nucleo_part_by_element _ _ _ _ _ _ HNT Hi Hsub Hq).
      unfold amino_part. rewrite (has_key_None _ _ (disjoint_not_amino _ Hdisj HNT)).
      reflexivity.
    + rewrite (resolve_properties_undef _ _ _ ER).
      rewrite (getitem_Some _ _ _ Hu), bind_Ok, (getitem_Some _ _ _ Hq). reflexivity.
Qed.

End ResolutionClaims.

Lemma demo_names_disjoint : @AA _ Demo.tables ##ₘ @NT _ Demo.tables.
Proof.
  apply map_disjoint_spec. intros i x y HA HN.
  change (({[ "ALA" := "A" ]} : gmap string string) !! i = Some x) in HA.
  change (({[ "A" := "A" ]} : gmap string string) !! i = Some y) in HN.
  apply lookup_singleton_Some in HA as [<- _].
  apply lookup_singleton_Some in HN as [HN _]. discriminate.
Qed.

Lemma resolution_three_way_witness :
  @AA _ Demo.tables ##ₘ @NT _ Demo.tables /\
  (@resolve_properties _ Demo.tables "ALA" "CA" "C"
     = Ok [Demo.entry 1870 "C4H1" 2300 12000]
   <-> @resolves_by_design _ Demo.tables "ALA" "CA" "C"
         (Demo.entry 1870 "C4H1" 2300 12000)).
Proof.
  split; [exact demo_names_disjoint |].
  apply (@resolution_three_way _ Demo.tables "ALA" "CA" "C"
           (Demo.entry 1870 "C4H1" 2300 12000)).
  exact demo_names_disjoint.
Defined.

(** The claim C2 fails as it stands.  A deuterium of an alanine is kept
    by the filter; the specification resolves it from the catch-all bucket,
    the code appends no tuple for it.  An atom named X1 of a nucleotide,
    element carbon, is kept; the initial of its element is a key of the
    nucleotide sub-table, so the specification resolves it by element, but
    the first character of its atom name is no key and the code appends no
    tuple. *)
Lemma resolution_neither_total_nor_gated_on_element :
  (keep_atom Demo.ala_D = Ok true /\
   @resolve_spec _ Demo.tables (Res_of Demo.ala_D) (Ana_of Demo.ala_D) (Ele_of Demo.ala_D)
     = Some (Demo.entry 1000 "D" 100 1000) /\
   @resolve_properties _ Demo.tables
     (Res_of Demo.ala_D) (Ana_of Demo.ala_D) (Ele_of Demo.ala_D) = Ok []) /\
  (keep_atom Demo.ade_X = Ok true /\
   @resolve_spec _ Demo.tables (Res_of Demo.ade_X) (Ana_of Demo.ade_X) (Ele_of Demo.ade_X)
     = Some (Demo.entry 1800 "C" 2000 10000) /\
   @resolve_properties _ Demo.tables
     (Res_of Demo.ade_X) (Ana_of Demo.ade_X) (Ele_of Demo.ade_X) = Ok []).
Proof. repeat split; reflexivity. Qed.

(** The gate of the nucleotide branch passes on the atom name while the
    entry is read under the element: an element that is no key raises. *)
Example nucleotide_gate_passes_then_key_error :
  @resolve_properties _ Demo.tables "A" "C1'" "" = Raise KeyError.
Proof. reflexivity. Qed.

(** The three designed cases on the demo table. *)
Example resolve_demo_atoms :
  @resolve_properties _ Demo.tables "ALA" "CA" "C" = Ok [Demo.entry 1870 "C4H1" 2300 12000] /\
  @resolve_properties _ Demo.tables "A" "P" "P" = Ok [Demo.entry 1900 "P" 1000 20000] /\
  @resolve_properties _ Demo.tables "ZN" "ZN" "ZN" = Ok [Demo.entry 1390 "ZN" 500 9000].
Proof. repeat split; reflexivity. Qed.

(* ===================================================================== *)
(** ** Facts about programs with output *)
(* ===================================================================== *)

Section TraceFacts.
Context `{Values}.

Lemma M_bind_Ok {A B} (m : M A) (f : A -> M B) (a : A) :
  outcome m = Ok a ->
  m ≫= f = mkM (trace m ++ trace (f a)) (outcome (f a)).
Proof. intros Hm. unfold mbind, M_bind. now rewrite Hm. Qed.

Lemma M_bind_Raise {A B} (m : M A) (f : A -> M B) (e : exn) :
  outcome m = Raise e -> m ≫= f = mkM (trace m) (Raise e).
Proof. intros Hm. unfold mbind, M_bind. now rewrite Hm. Qed.

Lemma M_bind_outcome_Ok {A B} (m : M A) (f : A -> M B) (b : B) :
  outcome (m ≫= f) = Ok b -> exists a, outcome m = Ok a /\ outcome (f a) = Ok b.
Proof.
  unfold mbind, M_bind. destruct (outcome m) as [a|e] eqn:E; simpl; [eauto | discriminate].
Qed.

Lemma M_ret_run {A} (a : A) : mret a = mkM [] (Ok a).
Proof. reflexivity. Qed.

End TraceFacts.

(* ===================================================================== *)
(** ** Facts about the classifier *)
(* ===================================================================== *)

Section ClassifierFacts.
Context `{Tables}.

Lemma read_atom_resolves (atom : string) (s : Site) (ps : list Props) :
  read_atom atom = Ok (s, ps) ->
  resolve_properties (Res_of atom) (Ana_of atom) (Ele_of atom) = Ok ps.
Proof.
  unfold read_atom. intros Hr.
  apply bind_Ok_inv in Hr as (n & _ & Hr).
  apply bind_Ok_inv in Hr as (chain & _ & Hr).
  apply bind_Ok_inv in Hr as (x & _ & Hr).
  apply bind_Ok_inv in Hr as (y & _ & Hr).
  apply bind_Ok_inv in Hr as (z & _ & Hr).
  apply bind_Ok_inv in Hr as (props & Hp & Hr).
  injection Hr as _ <-. exact Hp.
Qed.

Lemma collect_cons_Ok (atom : string) (rest : list string)
    (sites : list Site) (propss : list Props) :
  collect (atom :: rest) = Ok (sites, propss) ->
  exists s ps sites' propss',
    read_atom atom = Ok (s, ps) /\ collect rest = Ok (sites', propss') /\
    sites = s :: sites' /\ propss = ps ++ propss'.
Proof.
  simpl. intros Hc.
  apply bind_Ok_inv in Hc as ([s ps] & Hr & Hc).
  apply bind_Ok_inv in Hc as ([sites' propss'] & Hrest & Hc).
  injection Hc as <- <-. eauto 10.
Qed.

(** The site columns have one entry per atom, in order. *)
Lemma collect_sites (atom_model : list string) (sites : list Site) (propss : list Props) :
  collect atom_model = Ok (sites, propss) ->
  length sites = length atom_model /\
  forall k s, sites !! k = Some s ->
    exists atom ps, atom_model !! k = Some atom /\ read_atom atom = Ok (s, ps).
Proof.
  revert sites propss. induction atom_model as [|atom rest IH]; intros sites propss Hc.
  - injection Hc as <- <-. split; [reflexivity | intros k s Hk; discriminate].
  - apply collect_cons_Ok in Hc as (s0 & ps0 & sites' & propss' & Hr & Hrest & -> & ->).
    destruct (IH _ _ Hrest) as [Hlen Hk]. split; [simpl; now rewrite Hlen |].
    intros [|k] s Hs; simpl in Hs.
    + injection Hs as <-. eauto.
    + apply Hk in Hs as (a & ps & Ha & Hra). eauto.
Qed.

(** When no atom appends more than one tuple and the columns have equal
    lengths, the [k]-th tuple is the one the [k]-th atom appended. *)
Lemma collect_aligned (atom_model : list string) (sites : list Site) (propss : list Props) :
  (forall Res Ana Ele ps, resolve_properties Res Ana Ele = Ok ps -> length ps <= 1) ->
  collect atom_model = Ok (sites, propss) ->
  length propss <= length sites /\
  (length sites = length propss ->
   forall k atom p, atom_model !! k = Some atom -> propss !! k = Some p ->
     exists s, read_atom atom = Ok (s, [p])).
Proof.
  intros Hone. revert sites propss.
  induction atom_model as [|atom rest IH]; intros sites propss Hc.
  - injection Hc as <- <-. split; [reflexivity | intros _ k atom p Hk; discriminate].
  - apply collect_cons_Ok in Hc as (s0 & ps0 & sites' & propss' & Hr & Hrest & -> & ->).
    destruct (IH _ _ Hrest) as [Hle Hal].
    pose proof (Hone _ _ _ _ (read_atom_resolves _ _ _ Hr)) as Hps.
    rewrite length_app. simpl. split; [lia |].
    intros Hlen. destruct ps0 as [|p0 [|? ?]]; simpl in *; try lia.
    intros [|k] a p Ha Hp; simpl in *.
    + injection Ha as <-. injection Hp as <-. eauto.
    + eapply Hal; eauto; lia.
Qed.

(** The rows of [atom_df]: row [k] joins the [k]-th site entry with the
    [k]-th looked-up tuple, the water radius added to its radius. *)
Lemma atom_table_rows (atom_model : list string) (rows : list Row) :
  atom_table atom_model = Ok rows ->
  exists sites propss,
    collect atom_model = Ok (sites, propss) /\
    length sites = length propss /\
    forall r, r ∈ rows ->
      exists k s p, sites !! k = Some s /\ propss !! k = Some p /\
                    r = normalise (add_water (k, (s, p))).
Proof.
  unfold atom_table. intros Ht.
  apply bind_Ok_inv in Ht as ([sites propss] & Hc & Ht).
  apply bind_Ok_inv in Ht as (rows0 & Hd & Ht). injection Ht as <-.
  unfold from_dict in Hd. simpl in Hd.
  destruct (length sites =? length propss)%nat eqn:El; [| discriminate].
  injection Hd as <-. apply Nat.eqb_eq in El.
  exists sites, propss. repeat split; try assumption.
  intros r Hr. apply list_elem_of_In, in_map_iff in Hr as (r1 & <- & Hr).
  apply in_map_iff in Hr as (r0 & <- & Hr).
  apply list_elem_of_In, list_elem_of_lookup in Hr as (i & Hi).
  apply list_lookup_imap_Some in Hi as ([s p] & Hz & ->).
  apply lookup_zip_with_Some in Hz as (s' & p' & Heq & Hs & Hp). injection Heq as -> ->.
  exists i, s', p'. auto.
Qed.

Lemma show_outcome (part : list Row) (df : DataFrame) (text : string) :
  outcome (show part df text) = Ok ().
Proof. unfold show. destruct (bool_decide (part = [])); reflexivity. Qed.

(** What [parse_atom_model] returns when it returns. *)
Lemma parse_atom_model_Ok (atom_model : list string) (disable_print : bool)
    (aa_df nt_df ns_df : DataFrame) :
  outcome (parse_atom_model atom_model disable_print) = Ok (aa_df, nt_df, ns_df) ->
  exists rows,
    atom_table atom_model = Ok rows /\
    aa_df = mkDataFrame out_columns (aa_row <$> List.filter is_aa rows) /\
    nt_df = mkDataFrame out_columns (nt_row <$> List.filter is_nt rows) /\
    ns_df = mkDataFrame out_columns (ns_row <$> List.filter is_ns rows).
Proof.
  unfold parse_atom_model. intros Hp.
  apply M_bind_outcome_Ok in Hp as (rows & Ht & Hp). simpl in Ht.
  apply M_bind_outcome_Ok in Hp as ([] & _ & Hp).
  apply M_bind_outcome_Ok in Hp as ([] & _ & Hp). simpl in Hp.
  injection Hp as <- <- <-. exists rows. auto.
Qed.

(** On an empty frame the labels cannot be built. *)
Lemma parse_atom_model_empty_frame (atom_model : list string) (disable_print : bool) :
  atom_table atom_model = Ok [] ->
  parse_atom_model atom_model disable_print = mkM [] (Raise TypeError).
Proof.
  intros Ht. unfold parse_atom_model.
  rewrite (M_bind_Ok (lift (atom_table atom_model)) _ [] Ht). reflexivity.
Qed.

(** [parse_atom_model] returns only for a frame that has rows. *)
Lemma parse_atom_model_Ok_rows (atom_model : list string) (disable_print : bool)
    (r : DataFrame * DataFrame * DataFrame) (rows : list Row) :
  outcome (parse_atom_model atom_model disable_print) = Ok r ->
  atom_table atom_model = Ok rows -> rows <> [].
Proof.
  intros Hp Ht ->.
  rewrite (parse_atom_model_empty_frame _ _ Ht) in Hp. discriminate.
Qed.

(** The printing of [parse_atom_model] calls no collaborator. *)
Lemma show_trace (part : list Row) (df : DataFrame) (text : string) :
  Forall (fun ev => is_collaborator_call ev = false) (trace (show part df text)).
Proof.
  unfold show. destruct (bool_decide (part = [])); simpl; repeat constructor.
Qed.

Lemma parse_atom_model_trace (atom_model : list string) (disable_print : bool) :
  Forall (fun ev => is_collaborator_call ev = false)
         (trace (parse_atom_model atom_model disable_print)).
Proof.
  destruct (atom_table atom_model) as [rows|e] eqn:Ht.
  2:{ unfold parse_atom_model. rewrite Ht.
      rewrite (M_bind_Raise (lift (Raise e)) _ e eq_refl). simpl. constructor. }
  destruct rows as [|row0 rows0].
  { rewrite (parse_atom_model_empty_frame _ _ Ht). constructor. }
  assert (Hm : merge_chain_and_resname (row0 :: rows0) = Ok ()) by reflexivity.
  revert Ht Hm. generalize (row0 :: rows0). intros rows Ht Hm.
  unfold parse_atom_model. rewrite Ht.
  - rewrite (M_bind_Ok (lift (Ok rows)) _ rows eq_refl).
    rewrite (M_bind_Ok (lift (merge_chain_and_resname rows)) _ () Hm). simpl.
    destruct disable_print.
    + simpl. constructor.
    + set (a := show _ _ "len(amino_acid_df):").
      set (b := show _ _ "len(nucleotide_df):").
      set (c := show _ _ "len(non_standard_df):").
      assert (Ha := show_outcome (List.filter is_aa rows)
                      (mkDataFrame out_columns (aa_row <$> List.filter is_aa rows))
                      "len(amino_acid_df):").
      assert (Hb := show_outcome (List.filter is_nt rows)
                      (mkDataFrame out_columns (nt_row <$> List.filter is_nt rows))
                      "len(nucleotide_df):").
      assert (Hc := show_outcome (List.filter is_ns rows)
                      (mkDataFrame out_columns (ns_row <$> List.filter is_ns rows))
                      "len(non_standard_df):").
      fold a in Ha. fold b in Hb. fold c in Hc.
      rewrite (M_bind_Ok b _ () Hb) .
      rewrite (M_bind_Ok a _ () Ha). simpl.
      rewrite Hc. simpl. rewrite app_nil_r.
      repeat (apply Forall_app; split); apply show_trace.
Qed.

End ClassifierFacts.

Section ClassifierClaims.
Context `{Tables}.

Lemma looked_up_collect (atom_model : list string) (sites : list Site) (propss : list Props) :
  collect atom_model = Ok (sites, propss) -> looked_up atom_model = propss.
Proof. intros Hc. unfold looked_up. now rewrite Hc. Qed.

(** The radius cell of a row of a returned frame. *)
Lemma out_row_radius (residue : Cell) (k : nat) (s : Site) (p : Props) (rows : list (nat * list Cell)) :
  cell (mkDataFrame out_columns rows)
       (out_row residue (normalise (add_water (k, (s, p))))).2 "R"
  = Some (CNum (fadd (p_R p) Radius_H2O)).
Proof. reflexivity. Qed.

Lemma out_row_index (residue : Cell) (k : nat) (s : Site) (p : Props) :
  (out_row residue (normalise (add_water (k, (s, p))))).1 = k.
Proof. reflexivity. Qed.

(** C9: in each of the three frames the classifier returns, the radius of
    the row labelled [k] is the radius of the [k]-th looked-up tuple plus the
    water-probe radius, added once; the row stands for the [k]-th atom line,
    and when no residue name is both an amino acid and a nucleotide that
    tuple is the one tuple the lookup resolved for this very atom. *)
Theorem radius_includes_water_once (atom_model : list string) (disable_print : bool)
    (aa_df nt_df ns_df df : DataFrame) (k : nat) (row : list Cell) :
  outcome (parse_atom_model atom_model disable_print) = Ok (aa_df, nt_df, ns_df) ->
  df ∈ [aa_df; nt_df; ns_df] ->
  (k, row) ∈ df_rows df ->
  exists atom p,
    atom_model !! k = Some atom /\
    looked_up atom_model !! k = Some p /\
    cell df row "R" = Some (CNum (fadd (p_R p) Radius_H2O)) /\
    (AA ##ₘ NT ->
     resolve_properties (Res_of atom) (Ana_of atom) (Ele_of atom) = Ok [p]).
Proof.
  intros Hparse Hdf Hrow.
  apply parse_atom_model_Ok in Hparse as (rows & Ht & -> & -> & ->).
  destruct (atom_table_rows _ _ Ht) as (sites & propss & Hc & Hlen & Hrows).
  destruct (collect_sites _ _ _ Hc) as [Hsl Hsites].
  assert (Hsrc : exists residue r, r ∈ rows /\ (k, row) = out_row residue r
                                   /\ df_columns df = out_columns).
  { repeat (apply elem_of_cons in Hdf as [-> | Hdf]); [| | | inversion Hdf];
      simpl in Hrow; apply list_elem_of_fmap in Hrow as (r & Heq & Hr);
      apply list_elem_of_In, filter_In in Hr as [Hr _]; apply list_elem_of_In in Hr;
      eexists _, r; (split; [exact Hr | split; [exact Heq | reflexivity]]). }
  destruct Hsrc as (residue & r & Hr & Heq & Hcols).
  destruct (Hrows r Hr) as (k' & s & p & Hs & Hp & ->).
  assert (Hk : k = k') by (now apply (f_equal fst) in Heq).
  subst k'. apply (f_equal snd) in Heq. simpl in Heq.
  destruct (Hsites k s Hs) as (atom & ps & Hatom & Hread).
  exists atom, p. repeat split.
  - exact Hatom.
  - now rewrite (looked_up_collect _ _ _ Hc).
  - unfold cell. rewrite Hcols, Heq. reflexivity.
  - intros Hdisj.
    destruct (collect_aligned atom_model sites propss
                (fun R A E l => resolve_properties_at_most_one R A E l Hdisj) Hc)
      as [_ Hal].
    destruct (Hal Hlen k atom p Hatom Hp) as (s' & Hread').
    now apply read_atom_resolves in Hread'.
Qed.

End ClassifierClaims.

Lemma radius_includes_water_once_witness :
  outcome (@parse_atom_model _ Demo.tables Demo.three_atoms true)
    = Ok (Demo.aa_frame, Demo.nt_frame, Demo.ns_frame) /\
  exists atom p,
    Demo.three_atoms !! 1 = Some atom /\
    @looked_up _ Demo.tables Demo.three_atoms !! 1 = Some p /\
    cell Demo.nt_frame Demo.nt_row_1 "R"
    = Some (@CNum Demo.values (@fadd Demo.values (p_R p) (@Radius_H2O _ Demo.tables))) /\
    (@AA _ Demo.tables ##ₘ @NT _ Demo.tables ->
     @resolve_properties _ Demo.tables (Res_of atom) (Ana_of atom) (Ele_of atom) = Ok [p]).
Proof.
  split; [reflexivity |].
  apply (@radius_includes_water_once Demo.values Demo.tables Demo.three_atoms true
           Demo.aa_frame Demo.nt_frame Demo.ns_frame Demo.nt_frame 1 Demo.nt_row_1).
  - reflexivity.
  - right. left.
  - left.
Defined.

(** The radius of the phosphorus of the demo model: 1.900 looked up, 1.400
    added. *)
Example radius_of_demo_phosphorus :
  @atom_table _ Demo.tables [Demo.ade_P]
  = Ok [(0, (@mkSite Demo.values "B5" "A" "P" 31000%Z 32000%Z 33000%Z,
             Demo.entry 3300 "P" 1000 20000))].
Proof. reflexivity. Qed.

(* ===================================================================== *)
(** ** Facts about the pipeline *)
(* ===================================================================== *)

Section PipelineFacts.
Context `{Tables} `{!Collaborators}.

Variables (name : string) (interval : F) (ref_fp out_dp : string)
          (threshold : list F) (density compress disable_print : bool).

(** Up to the return of the volume step, a run prints what the classifier
    prints, calls the dihedral step if the model has amino-acid rows, and
    calls the volume step on the concatenated frame. *)
Lemma arip_analyze_body_until_volume (idx : Z) (atom_model : list string)
    (aa_df nt_df ns_df atom_df : DataFrame) (dihedral_angle : Dihedral)
    (contact_dict : ContactDict) (volume : Volume) :
  outcome (parse_atom_model atom_model disable_print) = Ok (aa_df, nt_df, ns_df) ->
  dihedral_step name atom_model disable_print aa_df = Ok dihedral_angle ->
  pdb_dotarray_volume (df_concat [aa_df; nt_df; ns_df]) density interval disable_print
    = Ok (atom_df, (contact_dict, volume)) ->
  arip_analyze_body idx name atom_model interval ref_fp out_dp threshold density
    compress disable_print
  = mkM (trace (parse_atom_model atom_model disable_print)
         ++ dihedral_events name atom_model disable_print aa_df
         ++ [ECall_dotarray_volume (df_concat [aa_df; nt_df; ns_df]) density interval
               disable_print]
         ++ trace (after_volume idx name ref_fp out_dp threshold compress disable_print
                    dihedral_angle atom_df contact_dict volume))
        (outcome (after_volume idx name ref_fp out_dp threshold compress disable_print
                    dihedral_angle atom_df contact_dict volume)).
Proof.
  intros Hparse Hdih Hvol. unfold arip_analyze_body.
  rewrite (M_bind_Ok _ _ _ Hparse). cbn beta iota.
  unfold dihedral_step, dihedral_events in *.
  destruct (negb (df_empty aa_df)).
  - rewrite (M_bind_Ok (call _ _) _ dihedral_angle Hdih).
    rewrite (M_bind_Ok (call _ _) _ (atom_df, (contact_dict, volume)) Hvol).
    reflexivity.
  - injection Hdih as <-.
    unfold mret, M_ret.
    rewrite (M_bind_Ok (mkM [] (Ok DFalse)) _ DFalse eq_refl).
    rewrite (M_bind_Ok (call _ _) _ (atom_df, (contact_dict, volume)) Hvol).
    reflexivity.
Qed.




(** One turn of the loop, for a model whose analysis ran to its end. *)
Lemma process_model_completed (idx : Z) (atom_model : list string) :
  atom_model <> [] ->
  outcome (arip_analyze_body idx name atom_model interval ref_fp out_dp threshold
             density compress disable_print) = Ok None ->
  process_model name interval ref_fp out_dp threshold density compress disable_print
    (idx, atom_model)
  = mkM (trace (arip_analyze_body idx name atom_model interval ref_fp out_dp threshold
                  density compress disable_print)
         ++ [EPrint (run_ok name idx (elapsed_s idx))]) (Ok ()).
Proof.
  intros Hne Hbody. unfold process_model, arip_analyze, timer_s.
  rewrite (bool_decide_eq_false_2 _ Hne).
  rewrite (M_bind_Ok _ _ _ Hbody). unfold mret, M_ret. cbn [trace outcome].
  rewrite (M_bind_Ok (mkM _ _) _ (TFloat (elapsed_s idx)) eq_refl).
  cbn [trace outcome print]. now rewrite !app_nil_r.
Qed.

(** The loop goes on to the remaining models after a turn that did not
    raise. *)
Lemma model_loop_cons (model : Z * AtomModel) (rest : list (Z * AtomModel)) :
  outcome (process_model name interval ref_fp out_dp threshold density compress
             disable_print model) = Ok () ->
  model_loop name interval ref_fp out_dp threshold density compress disable_print
    (model :: rest)
  = mkM (trace (process_model name interval ref_fp out_dp threshold density compress
                  disable_print model)
         ++ trace (model_loop name interval ref_fp out_dp threshold density compress
                     disable_print rest))
        (outcome (model_loop name interval ref_fp out_dp threshold density compress
                    disable_print rest)).
Proof. intros Hp. cbn [model_loop]. now rewrite (M_bind_Ok _ _ _ Hp). Qed.


(** C8: a model with no kept line is skipped: the loop prints the skip
    message, which names the file and, for an explicit model, its number,
    records no collaborator call, raises nothing, and goes on with the
    remaining models. *)
Theorem empty_model_is_skipped (idx : Z) (rest : list (Z * AtomModel)) :
  process_model name interval ref_fp out_dp threshold density compress disable_print
    (idx, [])
  = mkM [EPrint (skipping_empty name idx)] (Ok ()) /\
  model_loop name interval ref_fp out_dp threshold density compress disable_print
    ((idx, []) :: rest)
  = mkM (EPrint (skipping_empty name idx)
         :: trace (model_loop name interval ref_fp out_dp threshold density compress
                     disable_print rest))
        (outcome (model_loop name interval ref_fp out_dp threshold density compress
                    disable_print rest)) /\
  skipping_empty name (-1)
  = "Skipping file " +:+ name +:+ " due to no valid atoms" /\
  (idx ≠ (-1)%Z ->
   skipping_empty name idx
   = "Skipping file " +:+ (name +:+ "_MODEL_" +:+ str_of_int idx)
     +:+ " due to no valid atoms").
Proof.
  assert (Hp : process_model name interval ref_fp out_dp threshold density compress
                 disable_print (idx, [])
               = mkM [EPrint (skipping_empty name idx)] (Ok ())) by reflexivity.
  split; [exact Hp |]. split; [| split; [reflexivity |]].
  - pose proof (model_loop_cons (idx, []) rest) as Hloop.
    rewrite Hp in Hloop. exact (Hloop eq_refl).
  - intros Hidx. unfold skipping_empty, model_name.
    apply Z.eqb_neq in Hidx. now rewrite Hidx.
Qed.

End PipelineFacts.

Section PipelineClaims.
Context `{Tables} `{!Collaborators}.

Variables (name : string) (interval : F) (ref_fp out_dp : string)
          (threshold : list F) (density compress disable_print : bool).

(** The frames of the classifier have no [Name] column: reducing their
    concatenation to the contact columns raises [KeyError]. *)
Lemma classifier_frames_lack_Name (atom_model : list string)
    (aa_df nt_df ns_df : DataFrame) :
  outcome (parse_atom_model atom_model disable_print) = Ok (aa_df, nt_df, ns_df) ->
  df_select contact_columns (df_concat [aa_df; nt_df; ns_df]) = Raise KeyError.
Proof.
  intros Hparse. apply parse_atom_model_Ok in Hparse as (rows & _ & -> & -> & ->).
  reflexivity.
Qed.

(** C1 (amended): when the volume step returns a contact map and a volume
    that are not both false, and the frame as that step leaves it has the
    columns Name, x, y, z, R, Surf and Type, the analysis reduces the frame to
    these columns, calls the surface step with the reference path, the
    reduced frame and the contact map, and, the surface step having returned,
    calls the report with the model number, the structure name, the dihedral
    result, the surface, the volume, the output directory, the thresholds and
    the compression flag. *)
Theorem surface_then_report (idx : Z) (atom_model : list string)
    (aa_df nt_df ns_df atom_df contact_df : DataFrame) (dihedral_angle : Dihedral)
    (contact_dict : ContactDict) (volume : Volume) (surface : Surface) :
  outcome (parse_atom_model atom_model disable_print) = Ok (aa_df, nt_df, ns_df) ->
  dihedral_step name atom_model disable_print aa_df = Ok dihedral_angle ->
  pdb_dotarray_volume (df_concat [aa_df; nt_df; ns_df]) density interval disable_print
    = Ok (atom_df, (contact_dict, volume)) ->
  truthy_contact_dict contact_dict = true \/ truthy_volume volume = true ->
  df_select contact_columns atom_df = Ok contact_df ->
  pdb_dotarray_surface ref_fp contact_df contact_dict disable_print = Ok surface ->
  trace (arip_analyze_body idx name atom_model interval ref_fp out_dp threshold
           density compress disable_print)
  = trace (parse_atom_model atom_model disable_print)
    ++ dihedral_events name atom_model disable_print aa_df
    ++ [ECall_dotarray_volume (df_concat [aa_df; nt_df; ns_df]) density interval
          disable_print;
        ECall_dotarray_surface ref_fp contact_df contact_dict disable_print;
        ECall_csv_sort idx name dihedral_angle surface volume out_dp threshold
          compress disable_print] /\
  outcome (arip_analyze_body idx name atom_model interval ref_fp out_dp threshold
             density compress disable_print)
  = (pdb_csv_sort idx name dihedral_angle surface volume out_dp threshold compress
       disable_print ≫= fun _ => Ok None).
Proof.
  intros Hparse Hdih Hvol Htrue Hsel Hsurf.
  rewrite (arip_analyze_body_until_volume name interval ref_fp out_dp threshold density
             compress disable_print idx atom_model aa_df nt_df ns_df atom_df
             dihedral_angle contact_dict volume Hparse Hdih Hvol).
  unfold after_volume.
  assert (Hgate : negb (truthy_contact_dict contact_dict) && negb (truthy_volume volume)
                  = false).
  { destruct Htrue as [-> | ->]; [reflexivity | apply andb_false_r]. }
  rewrite Hgate.
  rewrite (M_bind_Ok (lift _) _ contact_df Hsel).
  rewrite (M_bind_Ok (call _ _) _ surface Hsurf).
  cbn [trace outcome lift call app].
  destruct (pdb_csv_sort idx name dihedral_angle surface volume out_dp threshold
              compress disable_print) as [[]|e]; split; reflexivity.
Qed.

(** Without the [Name] column the analysis stops at the reduction: when the
    volume step returns the frame as it received it, the analysis raises
    [KeyError] and calls neither the surface step nor the report. *)
Lemma unchanged_frame_stops_analysis (idx : Z) (atom_model : list string)
    (aa_df nt_df ns_df : DataFrame) (dihedral_angle : Dihedral)
    (contact_dict : ContactDict) (volume : Volume) :
  outcome (parse_atom_model atom_model disable_print) = Ok (aa_df, nt_df, ns_df) ->
  dihedral_step name atom_model disable_print aa_df = Ok dihedral_angle ->
  pdb_dotarray_volume (df_concat [aa_df; nt_df; ns_df]) density interval disable_print
    = Ok (df_concat [aa_df; nt_df; ns_df], (contact_dict, volume)) ->
  truthy_contact_dict contact_dict = true \/ truthy_volume volume = true ->
  arip_analyze_body idx name atom_model interval ref_fp out_dp threshold density
    compress disable_print
  = mkM (trace (parse_atom_model atom_model disable_print)
         ++ dihedral_events name atom_model disable_print aa_df
         ++ [ECall_dotarray_volume (df_concat [aa_df; nt_df; ns_df]) density interval
               disable_print])
        (Raise KeyError).
Proof.
  intros Hparse Hdih Hvol Htrue.
  rewrite (arip_analyze_body_until_volume name interval ref_fp out_dp threshold density
             compress disable_print idx atom_model aa_df nt_df ns_df _
             dihedral_angle contact_dict volume Hparse Hdih Hvol).
  unfold after_volume.
  assert (Hgate : negb (truthy_contact_dict contact_dict) && negb (truthy_volume volume)
                  = false).
  { destruct Htrue as [-> | ->]; [reflexivity | apply andb_false_r]. }
  rewrite Hgate.
  rewrite (M_bind_Raise (lift _) _ KeyError
             (classifier_frames_lack_Name atom_model aa_df nt_df ns_df Hparse)).
  reflexivity.
Qed.

(** C6 (amended): a file whose lines after the first hold different numbers
    of [MODEL] and [ENDMDL] lines makes the loader fail with the
    corrupted-file message, whatever else the file holds: no model is
    returned, and [arip_main] stops there, having printed nothing and called
    no collaborator.  The first line is read and dropped before the markers
    are counted. *)
Theorem unequal_markers_abort_file (in_fp : string) (all_lines : list string) :
  read_file in_fp = Text all_lines ->
  length (marker_indices "MODEL" (tail all_lines))
  ≠ length (marker_indices "ENDMDL" (tail all_lines)) ->
  load_atom_models name (Text all_lines) = Raise (SystemExit (corrupted_file name)) /\
  arip_main in_fp out_dp ref_fp interval threshold density compress disable_print
  = mkM [] (Raise (SystemExit (corrupted_file (path_stem (path_stem in_fp))))).
Proof.
  intros Hfile Hlen.
  assert (Hload : forall n, load_atom_models n (Text all_lines)
                            = Raise (SystemExit (corrupted_file n))).
  { intros n. unfold load_atom_models, read_lines.
    now rewrite bind_Ok, (split_models_unequal n _ Hlen). }
  split; [apply Hload |].
  unfold arip_main. rewrite Hfile, Hload. reflexivity.
Qed.

End PipelineClaims.

(* ===================================================================== *)
(** ** The pipeline on the demo model *)
(* ===================================================================== *)

Lemma surface_then_report_witness :
  trace (@arip_analyze_body _ Demo.tables (Demo.naming_world Undecodable)
           1 "demo" Demo.three_atoms 500%Z "ref" "out" [] true false true)
  = trace (@parse_atom_model _ Demo.tables Demo.three_atoms true)
    ++ @dihedral_events Demo.values "demo" Demo.three_atoms true
         Demo.aa_frame
    ++ [@ECall_dotarray_volume Demo.values Demo.combined_frame true 500%Z true;
        @ECall_dotarray_surface Demo.values "ref" Demo.reduced_frame ["contact"] true;
        @ECall_csv_sort Demo.values 1 "demo" Demo.angles 7000%Z 5000%Z "out" []
          false true] /\
  outcome (@arip_analyze_body _ Demo.tables (Demo.naming_world Undecodable)
             1 "demo" Demo.three_atoms 500%Z "ref" "out" [] true false true)
  = (@pdb_csv_sort _ (Demo.naming_world Undecodable) 1 "demo" Demo.angles 7000%Z 5000%Z
       "out" [] false true ≫= fun _ => Ok None).
Proof.
  apply (@surface_then_report Demo.values Demo.tables (Demo.naming_world Undecodable)
           "demo" 500%Z "ref" "out" [] true false true 1%Z Demo.three_atoms
           Demo.aa_frame Demo.nt_frame Demo.ns_frame Demo.named_frame Demo.reduced_frame
           Demo.angles ["contact"] 5000%Z 7000%Z).
  - reflexivity.
  - reflexivity.
  - reflexivity.
  - left. reflexivity.
  - reflexivity.
  - reflexivity.
Defined.

(** The claim C1 fails as it stands: the volume step returns one contact and
    a volume, not both false, and hands the frame back as it received it; the
    analysis then raises [KeyError] at the reduction to the contact columns,
    and its trace ends with the call of the volume step: no surface step, no
    report. *)
Lemma volume_success_without_Name_column :
  @pdb_dotarray_volume _ (Demo.plain_world Undecodable) Demo.combined_frame true 500%Z true
    = Ok (Demo.combined_frame, (["contact"], 5000%Z)) /\
  @truthy_contact_dict Demo.values ["contact"] = true /\
  @arip_analyze_body _ Demo.tables (Demo.plain_world Undecodable)
     1 "demo" Demo.three_atoms 500%Z "ref" "out" [] true false true
  = @mkM Demo.values _
      [@ECall_dihedral_angle Demo.values "demo" (join Demo.three_atoms) true;
       @ECall_dotarray_volume Demo.values Demo.combined_frame true 500%Z true]
      (Raise KeyError).
Proof. repeat split; reflexivity. Qed.

Lemma unequal_markers_abort_file_witness :
  load_atom_models "demo" (Text Demo.unclosed_file)
    = Raise (SystemExit (corrupted_file "demo")) /\
  @arip_main _ Demo.tables (Demo.plain_world (Text Demo.unclosed_file))
     "data/demo.pdb.gz" "out" "ref" 500%Z [] true false true
  = @mkM Demo.values _ [] (Raise (SystemExit (corrupted_file "demo"))).
Proof.
  apply (@unequal_markers_abort_file Demo.values Demo.tables
           (Demo.plain_world (Text Demo.unclosed_file))
           "demo" 500%Z "ref" "out" [] true false true "data/demo.pdb.gz"
           Demo.unclosed_file).
  - reflexivity.
  - vm_compute. lia.
Defined.

(** The claim C6 fails as it stands: a file that opens with a [MODEL] line
    holds two [MODEL] lines and one [ENDMDL] line, yet it loads: the first
    line is not counted, the remaining pair is taken in order of occurrence,
    and the one model returned is empty.  [arip_main] reports it as
    skipped. *)
Lemma first_line_marker_is_not_counted :
  length (marker_indices "MODEL" Demo.marker_first_file) = 2 /\
  length (marker_indices "ENDMDL" Demo.marker_first_file) = 1 /\
  load_atom_models "demo" (Text Demo.marker_first_file) = Ok [(1%Z, [])] /\
  @arip_main _ Demo.tables (Demo.plain_world (Text Demo.marker_first_file))
     "demo.pdb" "out" "ref" 500%Z [] true false true
  = @mkM Demo.values _ [@EPrint Demo.values (skipping_empty "demo" 1)] (Ok ()).
Proof. repeat split; reflexivity. Qed.

(** The name of a structure is its file name without directory and
    without its last two suffixes; the running time is printed with three
    decimals. *)
Example demo_names_and_times :
  Demo.stem (Demo.stem "data/demo.pdb.gz") = "demo" /\
  Demo.stem (Demo.stem "demo.pdb") = "demo" /\
  Demo.stem ".hidden" = ".hidden" /\
  Demo.format_thousandths 250 = "0.250" /\
  Demo.format_thousandths 12005 = "12.005".
Proof. repeat split; reflexivity. Qed.


(** The next model of the file is analysed after the exhausted one: the
    trace of the loop shows the second call of the volume step. *)
Example exhausted_then_next_model :
  trace (@model_loop _ Demo.tables (Demo.exhausted_world Undecodable)
           "demo" 500%Z "ref" "out" [] true false true
           [(1%Z, [Demo.ala_CA]); (2%Z, [])])
  = [@ECall_dihedral_angle Demo.values "demo" Demo.ala_CA true;
     @ECall_dotarray_volume Demo.values
       (@df_concat Demo.values
          [Demo.aa_frame; @mkDataFrame Demo.values out_columns [];
           @mkDataFrame Demo.values out_columns []]) true 500%Z true;
     @EPrint Demo.values (skipping_memory "demo");
     @EPrint Demo.values "Skipping file demo_MODEL_2 due to no valid atoms"].
Proof. reflexivity. Qed.

(** A whole run on a file of two models, the volume step adding the [Name]
    column: each model ends with its report and its timing line. *)
Example arip_main_two_models :
  outcome (@arip_main _ Demo.tables (Demo.naming_world (Text Demo.two_models))
             "demo" "out" "ref" 500%Z [] true false true) = Ok () /\
  List.filter is_report_call
    (trace (@arip_main _ Demo.tables (Demo.naming_world (Text Demo.two_models))
              "demo" "out" "ref" 500%Z [] true false true))
  = [@ECall_csv_sort Demo.values 1 "demo" Demo.angles 7000%Z 5000%Z "out" [] false true;
     @ECall_csv_sort Demo.values 2 "demo" Demo.angles 7000%Z 5000%Z "out" [] false true].
Proof. split; reflexivity. Qed.

(* ===================================================================== *)
(** ** Further facts about the loader *)
(* ===================================================================== *)

Section LoaderExtras.



Lemma filter_sublist_of {A} (p : A -> bool) (l : list A) : List.filter p l `sublist_of` l.
Proof.
  induction l as [|x l IH]; simpl; [constructor |].
  destruct (p x); [now apply sublist_skip | now apply sublist_cons].
Qed.

Lemma list_slice_sublist {A} (b e : nat) (l : list A) : list_slice b e l `sublist_of` l.
Proof.
  unfold list_slice. etrans; [apply sublist_take | apply sublist_drop].
Qed.

Lemma filter_filter_andb {A} (p q : A -> bool) (l : list A) :
  List.filter q (List.filter p l) = List.filter (fun x => p x && q x) l.
Proof.
  induction l as [|x l IH]; simpl; [reflexivity |].
  destruct (p x); simpl; [destruct (q x) |]; now rewrite IH.
Qed.

(** On an atom record the two conditions agree. *)
Lemma keep_atom_on_record (line : string) :
  is_atom_record line = true -> keep_atom line = keep_atom_record line.
Proof. intros Hr. unfold keep_atom_record. now rewrite Hr. Qed.

Lemma kept_unfold (line : string) :
  kept line = is_atom_record line && holds (keep_atom line).
Proof. unfold kept, keep_atom_record. now destruct (is_atom_record line). Qed.

(** What [split_models] returns, read backwards. *)
Lemma split_models_inv (name : string) (lines : list string) (mdl : MDL_t) :
  split_models name lines = Ok mdl ->
  (marker_indices "MODEL" lines = [] /\ marker_indices "ENDMDL" lines = [] /\
   mdl = MDL_list (List.filter is_atom_record lines))
  \/ (marker_indices "MODEL" lines <> [] /\
      length (marker_indices "MODEL" lines) = length (marker_indices "ENDMDL" lines) /\
      mdl = MDL_dict (model_blocks (marker_indices "MODEL" lines)
                                   (marker_indices "ENDMDL" lines) lines)).
Proof.
  unfold split_models.
  destruct (bool_decide (marker_indices "MODEL" lines = [])) eqn:EM;
    destruct (bool_decide (marker_indices "ENDMDL" lines = [])) eqn:EE; simpl.
  - apply bool_decide_eq_true_1 in EM, EE. intros Hm. injection Hm as <-. left. auto.
  - discriminate.
  - apply bool_decide_eq_false_1 in EM.
    destruct (length (marker_indices "MODEL" lines)
              =? length (marker_indices "ENDMDL" lines))%nat eqn:El; [| discriminate].
    apply Nat.eqb_eq in El. intros Hm. injection Hm as <-. right. auto.
  - apply bool_decide_eq_false_1 in EM.
    destruct (length (marker_indices "MODEL" lines)
              =? length (marker_indices "ENDMDL" lines))%nat eqn:El; [| discriminate].
    apply Nat.eqb_eq in El. intros Hm. injection Hm as <-. right. auto.
Qed.


(** Every returned model is the filter of a stretch of the lines after the
    first: of all of them, or of a slice of them. *)
Lemma load_atom_models_shape (name : string) (all_lines : list string)
    (models : list (Z * AtomModel)) (idx : Z) (a_model : AtomModel) :
  load_atom_models name (Text all_lines) = Ok models ->
  (idx, a_model) ∈ models ->
  exists b e, a_model = List.filter kept (list_slice b e (tail all_lines)).
Proof.
  unfold load_atom_models, read_lines. rewrite bind_Ok. intros Hload Hm.
  apply bind_Ok_inv in Hload as (mdl & Hsplit & Hload).
  apply split_models_inv in Hsplit as [(_ & _ & ->) | (_ & _ & ->)].
  - apply bind_Ok_inv in Hload as (m & Hf & Hload). injection Hload as <-.
    apply list_elem_of_singleton in Hm. injection Hm as -> ->.
    apply filterM_Ok in Hf. subst m.
    exists 0, (length (tail all_lines)).
    unfold list_slice. rewrite drop_0, Nat.sub_0_r, firstn_all.
    rewrite filter_filter_andb. apply filter_ext. intros l. now rewrite kept_unfold.
  - destruct (forM_Ok_elem _ _ _ _ Hload Hm) as ([idx' block] & Hin & Hf).
    apply bind_Ok_inv in Hf as (m & Hf & Heq). injection Heq as -> ->.
    apply filterM_Ok in Hf. subst a_model.
    unfold model_blocks in Hin. apply list_elem_of_fmap in Hin as (i & Heq & _).
    injection Heq as -> ->. eauto.
Qed.

(** X1: a file whose lines after the first hold neither a [MODEL] nor an
    [ENDMDL] line, and no atom record that ends before its alternate-location
    column, gives exactly one model, numbered -1, made of the atom records
    that pass the filter, in file order. *)
Theorem single_model_without_markers (name : string) (all_lines : list string) :
  marker_indices "MODEL" (tail all_lines) = [] ->
  marker_indices "ENDMDL" (tail all_lines) = [] ->
  Forall (fun l => too_short l = false) (tail all_lines) ->
  load_atom_models name (Text all_lines)
  = Ok [((-1)%Z, List.filter kept (tail all_lines))].
Proof.
  intros HM HE Hwide. unfold load_atom_models, read_lines. rewrite bind_Ok.
  assert (Hsplit : split_models name (tail all_lines)
                   = Ok (MDL_list (List.filter is_atom_record (tail all_lines))))
    by (unfold split_models; rewrite HM, HE; reflexivity).
  rewrite Hsplit, bind_Ok.
  rewrite filterM_total.
  - rewrite bind_Ok, filter_filter_andb.
    do 3 f_equal. apply filter_ext. intros l. now rewrite kept_unfold.
  - apply Forall_forall. intros l Hl.
    apply list_elem_of_In, filter_In in Hl as [Hl Hrec].
    rewrite (keep_atom_on_record l Hrec). apply keep_atom_record_ok.
    rewrite Forall_forall in Hwide. apply Hwide. now apply list_elem_of_In.
Qed.

Lemma single_model_without_markers_witness :
  load_atom_models "demo"
    (Text [Demo.header; Demo.water; Demo.ala_H; Demo.ala_CA; Demo.ala_OXT; Demo.zinc])
  = Ok [((-1)%Z,
         List.filter kept
           (tail [Demo.header; Demo.water; Demo.ala_H; Demo.ala_CA; Demo.ala_OXT;
                  Demo.zinc]))].
Proof.
  apply (single_model_without_markers "demo"
           [Demo.header; Demo.water; Demo.ala_H; Demo.ala_CA; Demo.ala_OXT; Demo.zinc]).
  - reflexivity.
  - reflexivity.
  - repeat constructor.
Defined.

(** X2: the loader neither reorders nor repeats lines: every returned model
    is a sublist of the lines of the file after its first line. *)
Theorem models_keep_file_order (name : string) (all_lines : list string)
    (models : list (Z * AtomModel)) (idx : Z) (a_model : AtomModel) :
  load_atom_models name (Text all_lines) = Ok models ->
  (idx, a_model) ∈ models ->
  a_model `sublist_of` tail all_lines.
Proof.
  intros Hload Hm.
  destruct (load_atom_models_shape _ _ _ _ _ Hload Hm) as (b & e & ->).
  etrans; [apply filter_sublist_of | apply list_slice_sublist].
Qed.

Lemma models_keep_file_order_witness :
  [Demo.ala_CA] `sublist_of` tail Demo.two_models.
Proof.
  apply (models_keep_file_order "demo" Demo.two_models
           [(1%Z, [Demo.ala_CA]); (2%Z, [Demo.ala_CA])] 2%Z [Demo.ala_CA]).
  - reflexivity.
  - right. left.
Defined.

(** X3: every line of every returned model is an ATOM or HETATM record,
    reaches its alternate-location column, and holds the text OXT nowhere,
    in whichever column it might stand. *)
Theorem kept_lines_are_whole_atom_records (name : string) (all_lines : list string)
    (models : list (Z * AtomModel)) (idx : Z) (a_model : AtomModel) (line : string) :
  load_atom_models name (Text all_lines) = Ok models ->
  (idx, a_model) ∈ models -> line ∈ a_model ->
  is_atom_record line = true /\
  16 < String.length line /\
  contains "OXT" line = false.
Proof.
  intros Hload Hm Hl.
  destruct (load_atom_models_shape _ _ _ _ _ Hload Hm) as (b & e & ->).
  apply list_elem_of_In, filter_In in Hl as [_ Hk].
  apply holds_true, keep_atom_record_true in Hk as [Hrec Hk].
  destruct (keep_atom_true line Hk) as (Hoxt & Halt & _).
  repeat split; [exact Hrec | | exact Hoxt].
  destruct (Nat.lt_ge_cases 16 (String.length line)) as [Hlt | Hge]; [exact Hlt |].
  apply get_None_length in Hge. unfold altloc in Halt. rewrite Hge in Halt.
  destruct Halt; discriminate.
Qed.

Lemma kept_lines_are_whole_atom_records_witness :
  is_atom_record Demo.zinc = true /\
  16 < String.length Demo.zinc /\
  contains "OXT" Demo.zinc = false.
Proof.
  apply (kept_lines_are_whole_atom_records "demo"
           [Demo.header; Demo.water; Demo.ala_OXT; Demo.zinc]
           [((-1)%Z, [Demo.zinc])] (-1)%Z [Demo.zinc] Demo.zinc).
  - reflexivity.
  - left.
  - left.
Defined.



(** A path that cannot be opened: the exception of [open] leaves
    [load_atom_models], and [arip_main], as it is. *)
Example missing_file_escapes :
  load_atom_models "demo" (Unopenable "No such file or directory")
  = Raise (OSError "No such file or directory") /\
  @arip_main _ Demo.tables (Demo.plain_world (Unopenable "No such file or directory"))
     "demo.pdb" "out" "ref" 500%Z [] true false true
  = @mkM Demo.values _ [] (Raise (OSError "No such file or directory")).
Proof. split; reflexivity. Qed.

End LoaderExtras.

(* ===================================================================== *)
(** ** Further facts about the fields of an atom line *)
(* ===================================================================== *)

Section FieldExtras.

Lemma occurs_in_length (t s : string) :
  occurs_in t s -> String.length t <= String.length s.
Proof. intros (a & b & ->). rewrite !length_append. lia. Qed.

Lemma lstrip_head (s : string) (c : ascii) (r : string) :
  lstrip s = String c r -> isspace c = false.
Proof.
  induction s as [|d s IH]; simpl; [discriminate |].
  destruct (isspace d) eqn:Hd; [exact IH |].
  intros Heq. injection Heq as <- _. exact Hd.
Qed.

Lemma rstrip_head (s : string) (c : ascii) (r : string) :
  rstrip s = String c r -> exists r', s = String c r'.
Proof.
  destruct s as [|d s]; simpl; [discriminate |].
  destruct (rstrip s); [destruct (isspace d); [discriminate |] |];
    intros Heq; injection Heq as <- _; eauto.
Qed.

Lemma strip_head (s : string) (c : ascii) (r : string) :
  strip s = String c r -> isspace c = false.
Proof.
  unfold strip. intros Heq. apply rstrip_head in Heq as (r' & Heq).
  now apply lstrip_head in Heq.
Qed.

Lemma substring_beyond (n m : nat) (s : string) :
  String.length s <= n -> String.substring n m s = "".
Proof.
  revert n. induction s as [|c s IH]; intros n Hlen.
  - now destruct n, m.
  - destruct n as [|n]; simpl in *; [lia | apply IH; lia].
Qed.

(** X12: the fields the classifier reads fit their columns: the residue
    name has at most 3 characters, so it is never the key UNDEF of the
    catch-all bucket; the atom name has at most 4 and the element at most 2;
    and the atom name, when it is not empty, starts with a character that is
    no white space, which is the character the nucleotide gate reads. *)
Theorem fields_fit_their_columns (atom : string) :
  String.length (Res_of atom) <= 3 /\
  String.length (Ana_of atom) <= 4 /\
  String.length (Ele_of atom) <= 2 /\
  Res_of atom ≠ "UNDEF" /\
  (forall c rest, Ana_of atom = String c rest -> isspace c = false).
Proof.
  assert (HR : String.length (Res_of atom) <= 3).
  { unfold Res_of. pose proof (occurs_in_length _ _ (lstrip_occurs (slice 17 20 atom))).
    pose proof (slice_length 17 20 atom). lia. }
  split; [exact HR |]. split; [| split; [| split]].
  - unfold Ana_of. pose proof (occurs_in_length _ _ (strip_occurs (slice 12 16 atom))).
    pose proof (slice_length 12 16 atom). lia.
  - unfold Ele_of. pose proof (occurs_in_length _ _ (lstrip_occurs (slice 76 78 atom))).
    pose proof (slice_length 76 78 atom). lia.
  - intros Heq. rewrite Heq in HR. simpl in HR. lia.
  - intros c rest. unfold Ana_of. apply strip_head.
Qed.

End FieldExtras.

(* ===================================================================== *)
(** ** Further facts about the classifier *)
(* ===================================================================== *)

Section ClassifierExtras.
Context `{Tables}.

Lemma collect_first_failure (pre post : list string) (atom : string) (e : exn) :
  Forall (fun a => is_ok (read_atom a) = true) pre ->
  read_atom atom = Raise e ->
  collect (pre ++ atom :: post) = Raise e.
Proof.
  intros Hpre Hatom. induction Hpre as [|a pre Ha _ IH]; simpl.
  - now rewrite Hatom.
  - destruct (read_atom a) as [[s ps]|]; [| discriminate].
    rewrite bind_Ok. now rewrite IH.
Qed.

Lemma parse_atom_model_Raise (atom_model : list string) (disable_print : bool) (e : exn) :
  atom_table atom_model = Raise e ->
  parse_atom_model atom_model disable_print = mkM [] (Raise e).
Proof.
  intros Ht. unfold parse_atom_model.
  now rewrite (M_bind_Raise (lift (atom_table atom_model)) _ e Ht), Ht.
Qed.

(** X5: the first atom line on which the loop raises aborts the
    classification of the model with that exception, whatever follows it, and
    nothing has been printed. *)
Theorem classification_aborts_at_first_failure (pre post : list string) (atom : string)
    (e : exn) (disable_print : bool) :
  Forall (fun a => is_ok (read_atom a) = true) pre ->
  read_atom atom = Raise e ->
  parse_atom_model (pre ++ atom :: post) disable_print = mkM [] (Raise e).
Proof.
  intros Hpre Hatom. apply parse_atom_model_Raise. unfold atom_table.
  now rewrite (collect_first_failure pre post atom e Hpre Hatom).
Qed.

(** X6: an atom line that ends before its residue number cannot be
    classified: reading it raises [ValueError], from [int] on the empty
    field, before the chain column is looked at. *)
Theorem record_cut_before_residue_number (atom : string) :
  String.length atom <= 22 -> read_atom atom = Raise ValueError.
Proof.
  intros Hlen. unfold read_atom, slice.
  now rewrite (substring_beyond 22 (26 - 22) atom Hlen).
Qed.

(** X7: with no residue name both an amino acid and a nucleotide, an atom
    for which the lookup appends no tuple leaves the property columns shorter
    than the site columns, and building the frame raises [ValueError]: the
    whole model is lost, not the atom alone. *)
Theorem unresolved_atom_breaks_frame (atom_model : list string) (sites : list Site)
    (propss : list Props) (atom : string) (disable_print : bool) :
  AA ##ₘ NT ->
  collect atom_model = Ok (sites, propss) ->
  atom ∈ atom_model ->
  resolve_properties (Res_of atom) (Ana_of atom) (Ele_of atom) = Ok [] ->
  parse_atom_model atom_model disable_print = mkM [] (Raise ValueError).
Proof.
  intros Hdisj Hc Hin Hres. apply parse_atom_model_Raise.
  unfold atom_table. rewrite Hc, bind_Ok. unfold from_dict. simpl.
  destruct (length sites =? length propss)%nat eqn:El; [| reflexivity].
  exfalso. apply Nat.eqb_eq in El.
  destruct (collect_aligned atom_model sites propss
              (fun R A E l => resolve_properties_at_most_one R A E l Hdisj) Hc)
    as [_ Hal].
  destruct (collect_sites _ _ _ Hc) as [Hlen _].
  apply list_elem_of_lookup in Hin as (k & Hk).
  destruct (lookup_lt_is_Some_2 propss k) as [p Hp].
  { rewrite <- El, Hlen. eapply lookup_lt_Some, Hk. }
  destruct (Hal El k atom p Hk Hp) as (s & Hread).
  apply read_atom_resolves in Hread. congruence.
Qed.

End ClassifierExtras.

Lemma classification_aborts_at_first_failure_witness :
  @parse_atom_model _ Demo.tables ([Demo.ala_CA] ++ Demo.short_atom :: [Demo.zinc]) false
  = @mkM Demo.values _ [] (Raise ValueError).
Proof.
  apply (@classification_aborts_at_first_failure _ Demo.tables
           [Demo.ala_CA] [Demo.zinc] Demo.short_atom ValueError false).
  - repeat constructor.
  - reflexivity.
Defined.

Lemma record_cut_before_residue_number_witness :
  @read_atom _ Demo.tables Demo.short_atom = Raise ValueError.
Proof.
  apply (@record_cut_before_residue_number _ Demo.tables Demo.short_atom).
  vm_compute. lia.
Defined.

Lemma unresolved_atom_breaks_frame_witness :
  @parse_atom_model _ Demo.tables [Demo.ala_CA; Demo.ala_D] true
  = @mkM Demo.values _ [] (Raise ValueError).
Proof.
  apply (@unresolved_atom_breaks_frame _ Demo.tables [Demo.ala_CA; Demo.ala_D]
           [@mkSite Demo.values "A1" "ALA" "CA" 11000%Z 12000%Z 13000%Z;
            @mkSite Demo.values "A1" "ALA" "D" 10500%Z 12000%Z 13000%Z]
           [Demo.entry 1870 "C4H1" 2300 12000] Demo.ala_D true).
  - exact demo_names_disjoint.
  - reflexivity.
  - right. left.
  - reflexivity.
Defined.

Section FrameExtras.
Context `{Tables}.

Lemma fmap_fst_map {A B} (f : nat * A -> nat * B) (l : list (nat * A)) :
  (forall r, (f r).1 = r.1) -> (List.map f l).*1 = l.*1.
Proof.
  intros Hf. induction l as [|r l IH]; [reflexivity |].
  cbn [List.map]. rewrite !fmap_cons, Hf. now rewrite IH.
Qed.

Lemma fmap_fst_fmap {A B} (f : nat * A -> nat * B) (l : list (nat * A)) :
  (forall r, (f r).1 = r.1) -> (f <$> l).*1 = l.*1.
Proof.
  intros Hf. induction l as [|r l IH]; [reflexivity |].
  rewrite !fmap_cons, Hf. now rewrite IH.
Qed.

Lemma imap_pair_labels {A} (l : list A) :
  (imap (fun k x => (k, x)) l).*1 = seq 0 (length l).
Proof.
  apply list_eq. intros i. rewrite list_lookup_fmap, list_lookup_imap.
  destruct (l !! i) as [x|] eqn:Hi; simpl.
  - symmetry. apply lookup_seq_lt. eapply lookup_lt_Some, Hi.
  - symmetry. apply lookup_seq_ge. now apply lookup_ge_None.
Qed.

Lemma add_water_label (r : Row) : (add_water r).1 = r.1.
Proof. now destruct r as [k [s p]]. Qed.

Lemma normalise_label (r : Row) : (normalise r).1 = r.1.
Proof. now destruct r as [k [s p]]. Qed.

Lemma out_row_label (residue : Cell) (r : Row) : (out_row residue r).1 = r.1.
Proof. now destruct r as [k [s p]]. Qed.

(** The index labels of [atom_df] are 0, 1, ..., one per atom line. *)
Lemma atom_table_labels (atom_model : list string) (rows : list Row) :
  atom_table atom_model = Ok rows -> rows.*1 = seq 0 (length atom_model).
Proof.
  unfold atom_table. intros Ht.
  apply bind_Ok_inv in Ht as ([sites propss] & Hc & Ht).
  apply bind_Ok_inv in Ht as (rows0 & Hd & Ht). injection Ht as <-.
  unfold from_dict in Hd. simpl in Hd.
  destruct (length sites =? length propss)%nat eqn:El; [| discriminate].
  injection Hd as <-. apply Nat.eqb_eq in El.
  rewrite (fmap_fst_map normalise _ normalise_label).
  rewrite (fmap_fst_map add_water _ add_water_label).
  rewrite imap_pair_labels, length_zip_with_l_eq by exact El.
  now destruct (collect_sites _ _ _ Hc) as [-> _].
Qed.

Lemma filter_fst_sublist {A} (p : nat * A -> bool) (l : list (nat * A)) :
  (List.filter p l).*1 `sublist_of` l.*1.
Proof.
  induction l as [|r l IH]; simpl; [constructor |].
  destruct (p r); [rewrite fmap_cons; now apply sublist_skip | now apply sublist_cons].
Qed.

Lemma sublist_Forall {A} (P : A -> Prop) (l1 l2 : list A) :
  l1 `sublist_of` l2 -> Forall P l2 -> Forall P l1.
Proof.
  induction 1 as [|x l1 l2 _ IH|x l1 l2 _ IH]; intros HP.
  - constructor.
  - apply Forall_cons in HP as [Hx HP]. constructor; auto.
  - apply Forall_cons in HP as [_ HP]. auto.
Qed.

Lemma sublist_StronglySorted {A} (R : A -> A -> Prop) (l1 l2 : list A) :
  l1 `sublist_of` l2 -> StronglySorted R l2 -> StronglySorted R l1.
Proof.
  induction 1 as [|x l1 l2 Hsub IH|x l1 l2 _ IH]; intros Hs.
  - constructor.
  - apply StronglySorted_inv in Hs as [Hs Hx]. constructor; [auto |].
    eapply sublist_Forall; eassumption.
  - apply StronglySorted_inv in Hs as [Hs _]. auto.
Qed.

Lemma seq_StronglySorted (j n : nat) : StronglySorted lt (seq j n).
Proof.
  revert j. induction n as [|n IH]; intros j; simpl; constructor; [apply IH |].
  apply Forall_forall. intros x Hx. apply elem_of_seq in Hx. lia.
Qed.

(** Three conditions of which exactly one holds split a list into three
    parts that hold it all. *)
Lemma filter3_Permutation {A} (p q r : A -> bool) (l : list A) :
  (forall x, (p x = true /\ q x = false /\ r x = false)
             \/ (p x = false /\ q x = true /\ r x = false)
             \/ (p x = false /\ q x = false /\ r x = true)) ->
  List.filter p l ++ List.filter q l ++ List.filter r l ≡ₚ l.
Proof.
  intros Hone. induction l as [|x l IH]; simpl; [reflexivity |].
  destruct (Hone x) as [(-> & -> & ->) | [(-> & -> & ->) | (-> & -> & ->)]]; simpl.
  - now constructor.
  - rewrite <- Permutation_middle. now constructor.
  - rewrite app_assoc, <- Permutation_middle, <- app_assoc. now constructor.
Qed.

Lemma one_class_per_row (r : Row) :
  AA ##ₘ NT ->
  (is_aa r = true /\ is_nt r = false /\ is_ns r = false)
  \/ (is_aa r = false /\ is_nt r = true /\ is_ns r = false)
  \/ (is_aa r = false /\ is_nt r = false /\ is_ns r = true).
Proof.
  intros Hdisj. unfold is_ns, is_aa, is_nt.
  destruct (AA !! s_ResName r.2.1) as [a|] eqn:EA;
    destruct (NT !! s_ResName r.2.1) as [n|] eqn:EN.
  - exfalso. exact (proj1 (map_disjoint_spec AA NT) Hdisj _ _ _ EA EN).
  - rewrite (has_key_Some _ _ _ EA), (has_key_None _ _ EN). auto.
  - rewrite (has_key_None _ _ EA), (has_key_Some _ _ _ EN). auto.
  - rewrite (has_key_None _ _ EA), (has_key_None _ _ EN). auto 6.
Qed.

(** X8: with no residue name both an amino acid and a nucleotide, the three
    frames split the atoms of the model: taken together their rows carry
    each index label 0 .. n-1 exactly once, n the number of atom lines, so
    the frame handed to the volume step has one row per atom. *)
Theorem partition_is_exhaustive_and_disjoint (atom_model : list string)
    (disable_print : bool) (aa_df nt_df ns_df : DataFrame) :
  AA ##ₘ NT ->
  outcome (parse_atom_model atom_model disable_print) = Ok (aa_df, nt_df, ns_df) ->
  (df_rows (df_concat [aa_df; nt_df; ns_df])).*1 ≡ₚ seq 0 (length atom_model).
Proof.
  intros Hdisj Hparse.
  apply parse_atom_model_Ok in Hparse as (rows & Ht & -> & -> & ->).
  rewrite <- (atom_table_labels _ _ Ht).
  unfold df_concat. simpl. rewrite app_nil_r, !fmap_app.
  rewrite (fmap_fst_fmap aa_row _ (fun r => out_row_label _ r)).
  rewrite (fmap_fst_fmap nt_row _ (fun r => out_row_label _ r)).
  rewrite (fmap_fst_fmap ns_row _ (fun r => out_row_label _ r)).
  rewrite <- !fmap_app. apply fmap_Permutation.
  apply filter3_Permutation. intros r. now apply one_class_per_row.
Qed.

(** X9: within each of the three frames the rows stand in the order of the
    atom lines: their index labels increase strictly. *)
Theorem frames_keep_line_order (atom_model : list string) (disable_print : bool)
    (aa_df nt_df ns_df df : DataFrame) :
  outcome (parse_atom_model atom_model disable_print) = Ok (aa_df, nt_df, ns_df) ->
  df ∈ [aa_df; nt_df; ns_df] ->
  StronglySorted lt (df_rows df).*1.
Proof.
  intros Hparse Hdf.
  apply parse_atom_model_Ok in Hparse as (rows & Ht & -> & -> & ->).
  assert (Hsorted : forall p, StronglySorted lt (List.filter p rows).*1).
  { intros p. eapply sublist_StronglySorted; [apply filter_fst_sublist |].
    rewrite (atom_table_labels _ _ Ht). apply seq_StronglySorted. }
  repeat (apply elem_of_cons in Hdf as [-> | Hdf]); [| | | inversion Hdf]; simpl.
  - rewrite (fmap_fst_fmap aa_row _ (fun r => out_row_label _ r)). apply Hsorted.
  - rewrite (fmap_fst_fmap nt_row _ (fun r => out_row_label _ r)). apply Hsorted.
  - rewrite (fmap_fst_fmap ns_row _ (fun r => out_row_label _ r)). apply Hsorted.
Qed.

(** X11: the printing switch changes what is printed, never what is
    returned; with printing disabled nothing is printed at all. *)
Theorem printing_does_not_change_result (atom_model : list string) :
  outcome (parse_atom_model atom_model true) = outcome (parse_atom_model atom_model false) /\
  trace (parse_atom_model atom_model true) = [].
Proof.
  destruct (atom_table atom_model) as [rows|e] eqn:Ht.
  2:{ unfold parse_atom_model. rewrite Ht.
      rewrite !(M_bind_Raise (lift (Raise e)) _ e eq_refl). split; reflexivity. }
  destruct rows as [|row0 rows0].
  { rewrite !(parse_atom_model_empty_frame _ _ Ht). split; reflexivity. }
  assert (Hm : merge_chain_and_resname (row0 :: rows0) = Ok ()) by reflexivity.
  revert Ht Hm. generalize (row0 :: rows0). intros rows Ht Hm.
  unfold parse_atom_model. rewrite Ht.
  - rewrite !(M_bind_Ok (lift (Ok rows)) _ rows eq_refl).
    rewrite !(M_bind_Ok (lift (merge_chain_and_resname rows)) _ () Hm).
    cbn [outcome trace lift app].
    set (a := show _ _ "len(amino_acid_df):").
    set (b := show _ _ "len(nucleotide_df):").
    set (c := show _ _ "len(non_standard_df):").
    assert (Ha : outcome a = Ok ()) by apply show_outcome.
    assert (Hb : outcome b = Ok ()) by apply show_outcome.
    assert (Hc : outcome c = Ok ()) by apply show_outcome.
    split.
    + rewrite (M_bind_Ok (a ≫= _) _ ()).
      * reflexivity.
      * rewrite (M_bind_Ok a _ () Ha). cbn [outcome].
        rewrite (M_bind_Ok b _ () Hb). cbn [outcome]. exact Hc.
    + reflexivity.
Qed.

End FrameExtras.

Lemma partition_is_exhaustive_and_disjoint_witness :
  (@df_rows Demo.values
     (@df_concat Demo.values [Demo.aa_frame; Demo.nt_frame; Demo.ns_frame])).*1
  ≡ₚ seq 0 (length Demo.three_atoms).
Proof.
  apply (@partition_is_exhaustive_and_disjoint _ Demo.tables Demo.three_atoms true
           Demo.aa_frame Demo.nt_frame Demo.ns_frame).
  - exact demo_names_disjoint.
  - reflexivity.
Defined.

Lemma frames_keep_line_order_witness :
  StronglySorted lt (@df_rows Demo.values Demo.ns_frame).*1.
Proof.
  apply (@frames_keep_line_order _ Demo.tables Demo.three_atoms true
           Demo.aa_frame Demo.nt_frame Demo.ns_frame Demo.ns_frame).
  - reflexivity.
  - right. right. left.
Defined.

Section LabelExtras.
Context `{Tables}.

Lemma read_atom_inv (atom : string) (s : Site) (ps : list Props) :
  read_atom atom = Ok (s, ps) ->
  exists n chain x y z,
    int (slice 22 26 atom) = Ok n /\ index atom 21 = Ok chain /\
    to_float (slice 30 38 atom) = Ok x /\ to_float (slice 38 46 atom) = Ok y /\
    to_float (slice 46 54 atom) = Ok z /\
    s = mkSite (String chain (str_of_int n)) (Res_of atom) (Ana_of atom) x y z.
Proof.
  unfold read_atom. intros Hr.
  apply bind_Ok_inv in Hr as (n & Hn & Hr).
  apply bind_Ok_inv in Hr as (chain & Hch & Hr).
  apply bind_Ok_inv in Hr as (x & Hx & Hr).
  apply bind_Ok_inv in Hr as (y & Hy & Hr).
  apply bind_Ok_inv in Hr as (z & Hz & Hr).
  apply bind_Ok_inv in Hr as (props & Hp & Hr).
  injection Hr as <- _. exists n, chain, x, y, z. auto 10.
Qed.

(** A row of [atom_df], traced back to its atom line. *)
Lemma table_row_source (atom_model : list string) (rows : list Row) (r : Row) :
  atom_table atom_model = Ok rows -> r ∈ rows ->
  exists atom n chain x y z p,
    atom_model !! r.1 = Some atom /\
    int (slice 22 26 atom) = Ok n /\ index atom 21 = Ok chain /\
    r = (r.1, (mkSite (String chain (str_of_int n)) (Res_of atom) (Ana_of atom) x y z, p)).
Proof.
  intros Ht Hr.
  destruct (atom_table_rows _ _ Ht) as (sites & propss & Hc & _ & Hrows).
  destruct (Hrows r Hr) as (k & s & p & Hs & _ & ->).
  destruct (collect_sites _ _ _ Hc) as [_ Hsites].
  destruct (Hsites k s Hs) as (atom & ps & Hatom & Hread).
  apply read_atom_inv in Hread as (n & chain & x & y & z & Hn & Hch & _ & _ & _ & ->).
  exists atom, n, chain, x, y, z. eexists. repeat split; try eassumption.
Qed.

(** X10: every row of a returned frame is labelled from its own atom line:
    chain and residue number, then a hyphen and the abbreviation of the
    residue name for an amino acid or a nucleotide, a semicolon and the
    residue name itself for any other residue, which is then neither an amino
    acid nor a nucleotide; the label is never missing, and the atom name
    stands beside it. *)
Theorem rows_carry_site_labels (atom_model : list string) (disable_print : bool)
    (aa_df nt_df ns_df : DataFrame) :
  outcome (parse_atom_model atom_model disable_print) = Ok (aa_df, nt_df, ns_df) ->
  (forall k row, (k, row) ∈ df_rows aa_df ->
     exists atom chain n ab,
       atom_model !! k = Some atom /\
       index atom 21 = Ok chain /\ int (slice 22 26 atom) = Ok n /\
       AA !! Res_of atom = Some ab /\
       cell aa_df row "Residue" = Some (CStr (String chain (str_of_int n) +:+ "-" +:+ ab)) /\
       cell aa_df row "Atom" = Some (CStr (Ana_of atom))) /\
  (forall k row, (k, row) ∈ df_rows nt_df ->
     exists atom chain n ab,
       atom_model !! k = Some atom /\
       index atom 21 = Ok chain /\ int (slice 22 26 atom) = Ok n /\
       NT !! Res_of atom = Some ab /\
       cell nt_df row "Residue" = Some (CStr (String chain (str_of_int n) +:+ "-" +:+ ab)) /\
       cell nt_df row "Atom" = Some (CStr (Ana_of atom))) /\
  (forall k row, (k, row) ∈ df_rows ns_df ->
     exists atom chain n,
       atom_model !! k = Some atom /\
       index atom 21 = Ok chain /\ int (slice 22 26 atom) = Ok n /\
       AA !! Res_of atom = None /\ NT !! Res_of atom = None /\
       cell ns_df row "Residue"
       = Some (CStr (String chain (str_of_int n) +:+ ";" +:+ Res_of atom)) /\
       cell ns_df row "Atom" = Some (CStr (Ana_of atom))).
Proof.
  intros Hparse.
  apply parse_atom_model_Ok in Hparse as (rows & Ht & -> & -> & ->).
  split; [| split]; intros k row Hrow; simpl in Hrow;
    apply list_elem_of_fmap in Hrow as (r & Heq & Hr);
    apply list_elem_of_In, filter_In in Hr as [Hr Hclass]; apply list_elem_of_In in Hr;
    destruct (table_row_source _ _ _ Ht Hr)
      as (atom & n & chain & x & y & z & p & Hatom & Hn & Hch & Hshape);
    rewrite Hshape in Heq, Hclass; injection Heq as -> ->.
  - unfold is_aa in Hclass. simpl in Hclass.
    apply has_key_is_Some in Hclass as [ab Hab].
    exists atom, chain, n, ab. repeat split; try assumption.
    unfold cell, aa_row. simpl. now rewrite Hab.
  - unfold is_nt in Hclass. simpl in Hclass.
    apply has_key_is_Some in Hclass as [ab Hab].
    exists atom, chain, n, ab. repeat split; try assumption.
    unfold cell, nt_row. simpl. now rewrite Hab.
  - unfold is_ns, is_aa, is_nt in Hclass. simpl in Hclass.
    apply andb_true_iff in Hclass as [Ha Hn'].
    apply negb_true_iff in Ha, Hn'.
    assert (EA : AA !! Res_of atom = None).
    { destruct (AA !! Res_of atom) eqn:E; [| reflexivity].
      rewrite (has_key_Some _ _ _ E) in Ha. discriminate. }
    assert (EN : NT !! Res_of atom = None).
    { destruct (NT !! Res_of atom) eqn:E; [| reflexivity].
      rewrite (has_key_Some _ _ _ E) in Hn'. discriminate. }
    exists atom, chain, n. repeat split; assumption.
Qed.

End LabelExtras.

Lemma rows_carry_site_labels_witness :
  (forall k row, (k, row) ∈ @df_rows Demo.values Demo.aa_frame ->
     exists atom chain n ab,
       Demo.three_atoms !! k = Some atom /\
       index atom 21 = Ok chain /\ int (slice 22 26 atom) = Ok n /\
       @AA _ Demo.tables !! Res_of atom = Some ab /\
       cell Demo.aa_frame row "Residue"
       = Some (@CStr Demo.values (String chain (str_of_int n) +:+ "-" +:+ ab)) /\
       cell Demo.aa_frame row "Atom" = Some (@CStr Demo.values (Ana_of atom))) /\
  (forall k row, (k, row) ∈ @df_rows Demo.values Demo.nt_frame ->
     exists atom chain n ab,
       Demo.three_atoms !! k = Some atom /\
       index atom 21 = Ok chain /\ int (slice 22 26 atom) = Ok n /\
       @NT _ Demo.tables !! Res_of atom = Some ab /\
       cell Demo.nt_frame row "Residue"
       = Some (@CStr Demo.values (String chain (str_of_int n) +:+ "-" +:+ ab)) /\
       cell Demo.nt_frame row "Atom" = Some (@CStr Demo.values (Ana_of atom))) /\
  (forall k row, (k, row) ∈ @df_rows Demo.values Demo.ns_frame ->
     exists atom chain n,
       Demo.three_atoms !! k = Some atom /\
       index atom 21 = Ok chain /\ int (slice 22 26 atom) = Ok n /\
       @AA _ Demo.tables !! Res_of atom = None /\
       @NT _ Demo.tables !! Res_of atom = None /\
       cell Demo.ns_frame row "Residue"
       = Some (@CStr Demo.values (String chain (str_of_int n) +:+ ";" +:+ Res_of atom)) /\
       cell Demo.ns_frame row "Atom" = Some (@CStr Demo.values (Ana_of atom))).
Proof.
  apply (@rows_carry_site_labels _ Demo.tables Demo.three_atoms true
           Demo.aa_frame Demo.nt_frame Demo.ns_frame).
  reflexivity.
Defined.

(* ===================================================================== *)
(** ** Further facts about the pipeline *)
(* ===================================================================== *)

Section PipelineExtras.
Context `{Tables} `{!Collaborators}.

Variables (name : string) (interval : F) (ref_fp out_dp : string)
          (threshold : list F) (density compress disable_print : bool).

Lemma filter_none {A} (p : A -> bool) (l : list A) :
  Forall (fun x => p x = false) l -> List.filter p l = [].
Proof. induction 1 as [|x l Hx _ IH]; simpl; [reflexivity | now rewrite Hx]. Qed.

Lemma after_volume_no_dihedral (idx : Z) (dihedral_angle : Dihedral)
    (atom_df : DataFrame) (contact_dict : ContactDict) (volume : Volume) :
  Forall (fun ev => is_dihedral_call ev = false)
    (trace (after_volume idx name ref_fp out_dp threshold compress disable_print
              dihedral_angle atom_df contact_dict volume)).
Proof.
  unfold after_volume.
  destruct (negb (truthy_contact_dict contact_dict) && negb (truthy_volume volume)).
  - repeat constructor.
  - destruct (df_select contact_columns atom_df) as [contact_df|e].
    + rewrite (M_bind_Ok (lift (Ok contact_df)) _ contact_df eq_refl).
      destruct (pdb_dotarray_surface ref_fp contact_df contact_dict disable_print)
        as [surface|e].
      * rewrite (M_bind_Ok (call _ (Ok surface)) _ surface eq_refl).
        destruct (pdb_csv_sort idx name dihedral_angle surface volume out_dp threshold
                    compress disable_print) as [[]|e]; repeat constructor.
      * rewrite (M_bind_Raise (call _ (Raise e)) _ e eq_refl).
        repeat constructor.
    + rewrite (M_bind_Raise (lift (Raise e)) _ e eq_refl). constructor.
Qed.

Lemma volume_onwards_no_dihedral (idx : Z) (dihedral_angle : Dihedral)
    (atom_df : DataFrame) :
  Forall (fun ev => is_dihedral_call ev = false)
    (trace (volume_onwards idx name interval ref_fp out_dp threshold density compress
              disable_print dihedral_angle atom_df)).
Proof.
  unfold volume_onwards.
  destruct (pdb_dotarray_volume atom_df density interval disable_print)
    as [[atom_df' [contact_dict volume]]|e].
  - rewrite (M_bind_Ok (call _ (Ok (atom_df', (contact_dict, volume)))) _ _ eq_refl).
    cbn [trace call].
    constructor; [reflexivity | apply after_volume_no_dihedral].
  - rewrite (M_bind_Raise (call _ (Raise e)) _ e eq_refl).
    repeat constructor.
Qed.

(** X15: the dihedral step is called exactly for a model that has
    amino-acid rows, once, before every other collaborator, with the
    structure name and the joined lines of the model; for a model without
    amino-acid rows it is never called, whatever the later steps do. *)
Theorem dihedral_only_for_amino_acids (idx : Z) (atom_model : list string)
    (aa_df nt_df ns_df : DataFrame) :
  outcome (parse_atom_model atom_model disable_print) = Ok (aa_df, nt_df, ns_df) ->
  List.filter is_dihedral_call
    (trace (arip_analyze_body idx name atom_model interval ref_fp out_dp threshold
              density compress disable_print))
  = dihedral_events name atom_model disable_print aa_df /\
  List.filter is_collaborator_call
    (firstn (length (trace (parse_atom_model atom_model disable_print)))
       (trace (arip_analyze_body idx name atom_model interval ref_fp out_dp threshold
                 density compress disable_print)))
  = [].
Proof.
  intros Hparse.
  assert (Hbody : arip_analyze_body idx name atom_model interval ref_fp out_dp threshold
                    density compress disable_print
                  = mkM (trace (parse_atom_model atom_model disable_print)
                         ++ trace ((if negb (df_empty aa_df)
                                    then call (ECall_dihedral_angle name (join atom_model)
                                                 disable_print)
                                              (pdb_dihedral_angle name (join atom_model)
                                                 disable_print)
                                    else mret DFalse)
                                   ≫= fun d =>
                                        volume_onwards idx name interval ref_fp out_dp
                                          threshold density compress disable_print d
                                          (df_concat [aa_df; nt_df; ns_df])))
                        (outcome ((if negb (df_empty aa_df)
                                   then call (ECall_dihedral_angle name (join atom_model)
                                                disable_print)
                                             (pdb_dihedral_angle name (join atom_model)
                                                disable_print)
                                   else mret DFalse)
                                  ≫= fun d =>
                                       volume_onwards idx name interval ref_fp out_dp
                                         threshold density compress disable_print d
                                         (df_concat [aa_df; nt_df; ns_df])))).
  { unfold arip_analyze_body. rewrite (M_bind_Ok _ _ _ Hparse). reflexivity. }
  rewrite Hbody. cbn [trace]. split.
  - rewrite List.filter_app.
    rewrite (filter_none is_dihedral_call (trace (parse_atom_model atom_model disable_print))).
    2:{ eapply Forall_impl; [apply parse_atom_model_trace |].
        intros ev. destruct ev; simpl; congruence. }
    unfold dihedral_events. destruct (negb (df_empty aa_df)).
    + destruct (pdb_dihedral_angle name (join atom_model) disable_print) as [d|e].
      * rewrite (M_bind_Ok (call _ (Ok d)) _ d eq_refl).
        cbn [trace call app List.filter is_dihedral_call].
        now rewrite (filter_none _ _ (volume_onwards_no_dihedral idx d _)).
      * rewrite (M_bind_Raise (call _ (Raise e)) _ e eq_refl). reflexivity.
    + unfold mret, M_ret.
      rewrite (M_bind_Ok (mkM [] (Ok DFalse)) _ DFalse eq_refl). cbn [trace app].
      apply filter_none, volume_onwards_no_dihedral.
  - rewrite firstn_app, Nat.sub_diag, firstn_all. cbn [firstn]. rewrite app_nil_r.
    apply filter_none, parse_atom_model_trace.
Qed.

(** One turn after another: while the turns do not raise, the loop adds
    their traces and goes on. *)
Lemma model_loop_app (pre l : list (Z * AtomModel)) :
  Forall (fun m => outcome (process_model name interval ref_fp out_dp threshold density
                              compress disable_print m) = Ok ()) pre ->
  model_loop name interval ref_fp out_dp threshold density compress disable_print
    (pre ++ l)
  = mkM (concat ((fun m => trace (process_model name interval ref_fp out_dp threshold
                                    density compress disable_print m)) <$> pre)
         ++ trace (model_loop name interval ref_fp out_dp threshold density compress
                     disable_print l))
        (outcome (model_loop name interval ref_fp out_dp threshold density compress
                    disable_print l)).
Proof.
  induction 1 as [|m pre Hm _ IH].
  - cbn [app fmap list_fmap concat].
    now destruct (model_loop name interval ref_fp out_dp threshold density compress
                    disable_print l).
  - cbn [app model_loop]. rewrite (M_bind_Ok _ _ _ Hm), IH. cbn [trace outcome].
    rewrite fmap_cons. cbn [concat]. now rewrite app_assoc.
Qed.

(** X13: [arip_main] raises exactly when the loader raises, with the
    loader's exception and before anything is printed or called; once the
    models are loaded, whatever the analysis of a model raises is caught and
    [arip_main] returns normally. *)
Theorem arip_main_raises_only_with_loader (in_fp : string) :
  outcome (arip_main in_fp out_dp ref_fp interval threshold density compress disable_print)
  = (load_atom_models (path_stem (path_stem in_fp)) (read_file in_fp) ≫= fun _ => Ok ()) /\
  (forall e, load_atom_models (path_stem (path_stem in_fp)) (read_file in_fp) = Raise e ->
             trace (arip_main in_fp out_dp ref_fp interval threshold density compress
                      disable_print) = []).
Proof.
  unfold arip_main.
  destruct (load_atom_models (path_stem (path_stem in_fp)) (read_file in_fp))
    as [models|e] eqn:Hload.
  - rewrite (M_bind_Ok (lift (Ok models)) _ models eq_refl). split; [| discriminate].
    cbn [outcome]. unfold try_except.
    destruct (outcome (model_loop (path_stem (path_stem in_fp)) interval ref_fp out_dp
                         threshold density compress disable_print models))
      as [[]|e] eqn:Hloop.
    + exact Hloop.
    + reflexivity.
  - rewrite (M_bind_Raise (lift (Raise e)) _ e eq_refl). split; [reflexivity |].
    reflexivity.
Qed.

(** X14: exceptions are caught per file, not per model: when the analysis
    of a model raises, the models after it in the file are never analysed;
    the loop stops, the file is reported as not analysable, and [arip_main]
    returns normally. *)
Theorem failing_model_abandons_file (in_fp : string)
    (pre rest : list (Z * AtomModel)) (model : Z * AtomModel) (e : exn) :
  load_atom_models (path_stem (path_stem in_fp)) (read_file in_fp)
    = Ok (pre ++ model :: rest) ->
  Forall (fun m => outcome (process_model (path_stem (path_stem in_fp)) interval ref_fp
                              out_dp threshold density compress disable_print m) = Ok ())
         pre ->
  outcome (process_model (path_stem (path_stem in_fp)) interval ref_fp out_dp threshold
             density compress disable_print model) = Raise e ->
  arip_main in_fp out_dp ref_fp interval threshold density compress disable_print
  = mkM (concat ((fun m => trace (process_model (path_stem (path_stem in_fp)) interval
                                    ref_fp out_dp threshold density compress
                                    disable_print m)) <$> pre)
         ++ trace (process_model (path_stem (path_stem in_fp)) interval ref_fp out_dp
                     threshold density compress disable_print model)
         ++ [EPrint (cannot_analyze (path_stem (path_stem in_fp)))])
        (Ok ()).
Proof.
  intros Hload Hpre Hmodel. unfold arip_main. rewrite Hload.
  rewrite (M_bind_Ok (lift (Ok _)) _ _ eq_refl). cbn [trace outcome lift app].
  assert (Hloop : model_loop (path_stem (path_stem in_fp)) interval ref_fp out_dp
                    threshold density compress disable_print (pre ++ model :: rest)
                  = mkM (concat ((fun m => trace (process_model
                                                    (path_stem (path_stem in_fp)) interval
                                                    ref_fp out_dp threshold density
                                                    compress disable_print m)) <$> pre)
                         ++ trace (process_model (path_stem (path_stem in_fp)) interval
                                     ref_fp out_dp threshold density compress
                                     disable_print model))
                        (Raise e)).
  { clear Hload. induction Hpre as [|m pre Hm _ IH].
    - cbn [app model_loop fmap list_fmap concat]. now rewrite (M_bind_Raise _ _ _ Hmodel).
    - cbn [app model_loop]. rewrite (M_bind_Ok _ _ _ Hm), IH. cbn [trace outcome].
      rewrite fmap_cons. cbn [concat]. now rewrite app_assoc. }
  rewrite Hloop. unfold try_except. cbn [outcome trace print].
  now rewrite <- app_assoc.
Qed.

End PipelineExtras.

Lemma dihedral_only_for_amino_acids_witness :
  List.filter is_dihedral_call
    (trace (@arip_analyze_body _ Demo.tables (Demo.plain_world Undecodable)
              1 "demo" Demo.three_atoms 500%Z "ref" "out" [] true false true))
  = @dihedral_events Demo.values "demo" Demo.three_atoms true Demo.aa_frame /\
  List.filter is_collaborator_call
    (firstn (length (trace (@parse_atom_model _ Demo.tables Demo.three_atoms true)))
       (trace (@arip_analyze_body _ Demo.tables (Demo.plain_world Undecodable)
                 1 "demo" Demo.three_atoms 500%Z "ref" "out" [] true false true)))
  = [].
Proof.
  apply (@dihedral_only_for_amino_acids _ Demo.tables (Demo.plain_world Undecodable)
           "demo" 500%Z "ref" "out" [] true false true 1%Z Demo.three_atoms
           Demo.aa_frame Demo.nt_frame Demo.ns_frame).
  reflexivity.
Defined.

(** A model without amino-acid rows: the volume step is the first
    collaborator called, and the report receives [False] as dihedral
    result. *)
Example zinc_alone_has_no_dihedral_call :
  List.filter is_collaborator_call
    (trace (@arip_analyze_body _ Demo.tables (Demo.naming_world Undecodable)
              1 "demo" [Demo.zinc] 500%Z "ref" "out" [] true false true))
  = [@ECall_dotarray_volume Demo.values
       (@df_concat Demo.values
          [@mkDataFrame Demo.values out_columns [];
           @mkDataFrame Demo.values out_columns [];
           @mkDataFrame Demo.values out_columns [(0, Demo.ns_row_2)]]) true 500%Z true;
     @ECall_dotarray_surface Demo.values "ref"
       (@mkDataFrame Demo.values contact_columns
          [(0, [Demo.str "A201;ZN-ZN"; Demo.num 41000; Demo.num 42000; Demo.num 43000;
                Demo.num 2790; Demo.num 500; Demo.tag "ZN"])])
       ["contact"] true;
     @ECall_csv_sort Demo.values 1 "demo" (@DFalse Demo.values) 7000%Z 5000%Z "out" []
       false true].
Proof. reflexivity. Qed.

Lemma failing_model_abandons_file_witness :
  @arip_main _ Demo.tables (Demo.plain_world (Text Demo.two_models))
    "demo" "out" "ref" 500%Z [] true false true
  = @mkM Demo.values _
      (concat ((fun m => trace (@process_model _ Demo.tables
                                  (Demo.plain_world (Text Demo.two_models))
                                  "demo" 500%Z "ref" "out" [] true false true m))
                 <$> [])
       ++ trace (@process_model _ Demo.tables (Demo.plain_world (Text Demo.two_models))
                   "demo" 500%Z "ref" "out" [] true false true (1%Z, [Demo.ala_CA]))
       ++ [@EPrint Demo.values (cannot_analyze "demo")])
      (Ok ()).
Proof.
  apply (@failing_model_abandons_file _ Demo.tables
           (Demo.plain_world (Text Demo.two_models))
           500%Z "ref" "out" [] true false true "demo"
           [] [(2%Z, [Demo.ala_CA])] (1%Z, [Demo.ala_CA]) KeyError).
  - reflexivity.
  - constructor.
  - reflexivity.
Defined.

(** The second model of the file is never reached: one call of the volume
    step in the whole run. *)
Example second_model_not_analysed :
  List.filter is_collaborator_call
    (trace (@arip_main _ Demo.tables (Demo.plain_world (Text Demo.two_models))
              "demo" "out" "ref" 500%Z [] true false true))
  = [@ECall_dihedral_angle Demo.values "demo" Demo.ala_CA true;
     @ECall_dotarray_volume Demo.values
       (@df_concat Demo.values
          [Demo.aa_frame; @mkDataFrame Demo.values out_columns [];
           @mkDataFrame Demo.values out_columns []]) true 500%Z true].
Proof. reflexivity. Qed.

(* ===================================================================== *)
(** ** How the classifier can fail *)
(* ===================================================================== *)

Section FailureExtras.
Context `{Tables}.

Lemma getitem_Raise {V} (d : gmap string V) (k : string) (e : exn) :
  getitem d k = Raise e -> d !! k = None /\ e = KeyError.
Proof. unfold getitem. destruct (d !! k); [discriminate |]. intros He. now injection He as <-. Qed.

Lemma nucleo_part_Raise (sub : gmap string Props) (Res Ana Ele : string) (e : exn) :
  nucleo_part sub Res Ana Ele = Raise e ->
  is_Some (NT !! Res) /\
  ((e = IndexError /\ Ana = "")
   \/ (e = KeyError /\
       exists i, initial Ana = Some i /\ is_Some (sub !! i) /\ sub !! Ele = None)).
Proof.
  unfold nucleo_part. intros H1.
  destruct (NT !! Res) as [a|] eqn:EN.
  - rewrite (has_key_Some _ _ _ EN), index_0 in H1. split; [eauto |].
    destruct Ana as [|c rest].
    + rewrite bind_Raise in H1. injection H1 as <-. auto.
    + rewrite bind_Ok in H1.
      destruct (sub !! String c "") as [q|] eqn:EI.
      * rewrite (has_key_Some _ _ _ EI) in H1.
        destruct (getitem sub Ele) as [p|e'] eqn:Hg; [discriminate |].
        rewrite bind_Raise in H1. injection H1 as ->.
        apply getitem_Raise in Hg as [Hg ->].
        right. split; [reflexivity |]. exists (String c ""). rewrite EI. eauto.
      * rewrite (has_key_None _ _ EI) in H1. discriminate.
  - rewrite (has_key_None _ _ EN) in H1. discriminate.
Qed.

(** X16: the lookup raises in two ways only: [IndexError], when the residue
    is a nucleotide of the table and the atom name is empty; [KeyError], when
    the residue is a nucleotide of the table, the first character of the atom
    name is a key of its sub-table and the element is not, or when the
    residue name is no key of the table and the catch-all bucket is missing
    or lacks the element.  An amino acid that is no nucleotide never makes
    the lookup raise. *)
Theorem lookup_raises_two_ways (Res Ana Ele : string) (e : exn) :
  resolve_properties Res Ana Ele = Raise e ->
  (e = IndexError /\ Ana = "" /\ is_Some (Radius !! Res) /\ is_Some (NT !! Res))
  \/ (e = KeyError /\
      exists sub i, Radius !! Res = Some sub /\ is_Some (NT !! Res) /\
                    initial Ana = Some i /\ is_Some (sub !! i) /\ sub !! Ele = None)
  \/ (e = KeyError /\ Radius !! Res = None /\
      (Radius !! "UNDEF" ≫= fun undef => undef !! Ele) = None).
Proof.
  intros Hr. destruct (Radius !! Res) as [sub|] eqn:ER.
  - rewrite (resolve_properties_standard _ _ _ _ ER) in Hr.
    assert (Hn : nucleo_part sub Res Ana Ele = Raise e).
    { destruct (amino_part_cases sub Res Ana) as [(p & _ & _ & Ha) | (_ & Ha)];
        rewrite Ha, bind_Ok in Hr;
        (destruct (nucleo_part sub Res Ana Ele) as [ps|e']; [discriminate |]);
        rewrite bind_Raise in Hr; now injection Hr as ->. }
    apply nucleo_part_Raise in Hn as [HNT [(-> & ->) | (-> & i & Hi & Hsub & Hele)]].
    + left. eauto.
    + right. left. split; [reflexivity |]. exists sub, i. auto.
  - rewrite (resolve_properties_undef _ _ _ ER) in Hr. right. right.
    destruct (getitem Radius "UNDEF") as [undef|e'] eqn:Hu.
    + rewrite bind_Ok in Hr.
      destruct (getitem undef Ele) as [p|e''] eqn:Hg; [discriminate |].
      rewrite bind_Raise in Hr. injection Hr as ->.
      apply getitem_Raise in Hg as [Hg ->]. apply getitem_Ok_inv in Hu.
      rewrite Hu. simpl. auto.
    + rewrite bind_Raise in Hr. injection Hr as ->.
      apply getitem_Raise in Hu as [Hu ->]. rewrite Hu. auto.
Qed.

Lemma int_Raise (s : string) (e : exn) : int s = Raise e -> e = ValueError.
Proof.
  unfold int.
  match goal with |- context [let '(_, _) := ?X in _] => destruct X as [neg digits] end.
  destruct (int_digits false 0%Z digits); [discriminate |].
  intros He. now injection He as <-.
Qed.

(** The lookup raises nothing but [IndexError] and [KeyError]. *)
Lemma resolve_properties_Raise_kind (Res Ana Ele : string) (e : exn) :
  resolve_properties Res Ana Ele = Raise e -> e = IndexError \/ e = KeyError.
Proof.
  intros Hr. destruct (Radius !! Res) as [sub|] eqn:ER.
  - rewrite (resolve_properties_standard _ _ _ _ ER) in Hr.
    assert (Hn : nucleo_part sub Res Ana Ele = Raise e).
    { destruct (amino_part_cases sub Res Ana) as [(p & _ & _ & Ha) | (_ & Ha)];
        rewrite Ha, bind_Ok in Hr;
        (destruct (nucleo_part sub Res Ana Ele) as [ps|e']; [discriminate |]);
        rewrite bind_Raise in Hr; now injection Hr as ->. }
    apply nucleo_part_Raise in Hn as [_ [(-> & _) | (-> & _)]]; auto.
  - rewrite (resolve_properties_undef _ _ _ ER) in Hr.
    destruct (getitem Radius "UNDEF") as [undef|e'] eqn:Hu.
    + rewrite bind_Ok in Hr.
      destruct (getitem undef Ele) as [p|e''] eqn:Hg; [discriminate |].
      rewrite bind_Raise in Hr. injection Hr as ->.
      apply getitem_Raise in Hg as [_ ->]. auto.
    + rewrite bind_Raise in Hr. injection Hr as ->.
      apply getitem_Raise in Hu as [_ ->]. auto.
Qed.

Lemma read_atom_Raise_kind (atom : string) (e : exn) :
  read_atom atom = Raise e -> e = IndexError \/ e = KeyError \/ e = ValueError.
Proof.
  unfold read_atom, to_float, index.
  destruct (int (slice 22 26 atom)) as [n|en] eqn:Hn.
  2:{ rewrite bind_Raise. intros He. injection He as <-.
      apply int_Raise in Hn. auto. }
  rewrite bind_Ok.
  destruct (String.get 21 atom); [rewrite bind_Ok | rewrite bind_Raise; intros He;
                                                   injection He as <-; auto].
  destruct (float (slice 30 38 atom)); [rewrite bind_Ok | rewrite bind_Raise; intros He;
                                                          injection He as <-; auto].
  destruct (float (slice 38 46 atom)); [rewrite bind_Ok | rewrite bind_Raise; intros He;
                                                          injection He as <-; auto].
  destruct (float (slice 46 54 atom)); [rewrite bind_Ok | rewrite bind_Raise; intros He;
                                                          injection He as <-; auto].
  destruct (resolve_properties (Res_of atom) (Ana_of atom) (Ele_of atom))
    as [ps|er] eqn:Hres; [discriminate |].
  rewrite bind_Raise. intros He. injection He as <-.
  destruct (resolve_properties_Raise_kind _ _ _ _ Hres) as [-> | ->]; auto.
Qed.

Lemma collect_Raise_kind (atom_model : list string) (e : exn) :
  collect atom_model = Raise e -> e = IndexError \/ e = KeyError \/ e = ValueError.
Proof.
  revert e. induction atom_model as [|atom rest IH]; intros e; simpl; [discriminate |].
  destruct (read_atom atom) as [[s ps]|er] eqn:Hr.
  - rewrite bind_Ok. destruct (collect rest) as [[ss pss]|ec]; [discriminate |].
    rewrite bind_Raise. intros He. injection He as <-. now apply IH.
  - rewrite bind_Raise. intros He. injection He as <-. eapply read_atom_Raise_kind, Hr.
Qed.

Lemma atom_table_Raise_kind (atom_model : list string) (e : exn) :
  atom_table atom_model = Raise e ->
  atom_model <> [] /\ (e = IndexError \/ e = KeyError \/ e = ValueError).
Proof.
  intros Ht. split; [now intros -> |].
  unfold atom_table in Ht.
  destruct (collect atom_model) as [info|ec] eqn:Hc.
  - rewrite bind_Ok in Ht. unfold from_dict in Ht.
    destruct (length info.1 =? length info.2)%nat; [discriminate |].
    rewrite bind_Raise in Ht. injection Ht as <-. auto.
  - rewrite bind_Raise in Ht. injection Ht as <-. eapply collect_Raise_kind, Hc.
Qed.

(** With a frame that has rows, the classifier returns. *)
Lemma parse_atom_model_returns (atom_model : list string) (disable_print : bool)
    (rows : list Row) :
  atom_table atom_model = Ok rows -> rows <> [] ->
  is_ok (outcome (parse_atom_model atom_model disable_print)) = true.
Proof.
  intros Ht Hne.
  assert (Hm : merge_chain_and_resname rows = Ok ()).
  { unfold merge_chain_and_resname. now rewrite bool_decide_eq_false_2. }
  unfold parse_atom_model.
  rewrite (M_bind_Ok (lift (atom_table atom_model)) _ rows Ht). cbn [outcome].
  rewrite (M_bind_Ok (lift (merge_chain_and_resname rows)) _ () Hm). cbn [outcome].
  destruct disable_print.
  - unfold mret, M_ret.
    now rewrite (M_bind_Ok (mkM [] (Ok ())) _ () eq_refl).
  - set (a := show _ _ "len(amino_acid_df):").
    set (b := show _ _ "len(nucleotide_df):").
    set (c := show _ _ "len(non_standard_df):").
    assert (Ha : outcome a = Ok ()) by apply show_outcome.
    assert (Hb : outcome b = Ok ()) by apply show_outcome.
    assert (Hc : outcome c = Ok ()) by apply show_outcome.
    rewrite (M_bind_Ok (a ≫= _) _ ()); [reflexivity |].
    rewrite (M_bind_Ok a _ () Ha). cbn [outcome].
    rewrite (M_bind_Ok b _ () Hb). cbn [outcome]. exact Hc.
Qed.

(** X17: the classifier raises [TypeError] on a model without atom lines,
    where the frame has no column of strings to build the residue labels
    from, and on a model with atom lines nothing but [IndexError],
    [KeyError] or [ValueError]; when it raises it has printed nothing. *)
Theorem classifier_raises_four_kinds (atom_model : list string) (disable_print : bool)
    (e : exn) :
  outcome (parse_atom_model atom_model disable_print) = Raise e ->
  ((atom_model = [] /\ e = TypeError)
   \/ (atom_model <> [] /\ (e = IndexError \/ e = KeyError \/ e = ValueError))) /\
  trace (parse_atom_model atom_model disable_print) = [] /\
  parse_atom_model [] disable_print = mkM [] (Raise TypeError).
Proof.
  intros Hp.
  assert (Hempty : parse_atom_model [] disable_print = mkM [] (Raise TypeError)).
  { now apply parse_atom_model_empty_frame. }
  destruct (atom_table atom_model) as [rows|et] eqn:Ht.
  - destruct rows as [|row0 rows0].
    + assert (Hnil : atom_model = []).
      { apply atom_table_labels in Ht. simpl in Ht.
        destruct atom_model; [reflexivity | discriminate]. }
      subst atom_model. rewrite Hempty in *. cbn [outcome trace] in *.
      injection Hp as <-. auto.
    + exfalso.
      pose proof (parse_atom_model_returns atom_model disable_print _ Ht
                    ltac:(discriminate)) as Hok.
      now rewrite Hp in Hok.
  - rewrite (parse_atom_model_Raise _ _ _ Ht) in *. cbn [outcome trace] in *.
    injection Hp as <-. apply atom_table_Raise_kind in Ht. auto.
Qed.

End FailureExtras.

Lemma lookup_raises_two_ways_witness :
  (KeyError = IndexError /\ "C1'" = "" /\
   is_Some (@Radius _ Demo.tables !! "A") /\ is_Some (@NT _ Demo.tables !! "A"))
  \/ (KeyError = KeyError /\
      exists sub i, @Radius _ Demo.tables !! "A" = Some sub /\
                    is_Some (@NT _ Demo.tables !! "A") /\
                    initial "C1'" = Some i /\ is_Some (sub !! i) /\ sub !! "" = None)
  \/ (KeyError = KeyError /\ @Radius _ Demo.tables !! "A" = None /\
      (@Radius _ Demo.tables !! "UNDEF" ≫= fun undef => undef !! "") = None).
Proof.
  apply (@lookup_raises_two_ways _ Demo.tables "A" "C1'" "" KeyError).
  reflexivity.
Defined.

Lemma classifier_raises_four_kinds_witness :
  (([Demo.ala_CA; Demo.ala_D] = [] /\ ValueError = TypeError)
   \/ ([Demo.ala_CA; Demo.ala_D] <> [] /\
       (ValueError = IndexError \/ ValueError = KeyError \/ ValueError = ValueError))) /\
  trace (@parse_atom_model _ Demo.tables [Demo.ala_CA; Demo.ala_D] false) = [] /\
  @parse_atom_model _ Demo.tables [] false = @mkM Demo.values _ [] (Raise TypeError).
Proof.
  apply (@classifier_raises_four_kinds _ Demo.tables [Demo.ala_CA; Demo.ala_D] false
           ValueError).
  reflexivity.
Defined.

(** [int] does not skip the separators 28..31 that [strip] removes. *)
Example int_keeps_separators :
  int (String (ascii_of_nat 28) "12") = Raise ValueError /\
  strip (String (ascii_of_nat 28) "12") = "12" /\
  int "  12
" = Ok 12%Z.
Proof. repeat split; reflexivity. Qed.
